(** * Calculator.py: the equation-to-curve pipeline of the ODE calculator

    A shallow embedding of the handlers that [main] registers in
    [src/Calculator.py] ([agregar_simbolo], [limpiar_ecuacion],
    [crear_grafica_externa], [mostrar_grafica_externa], [resolver_ecuacion])
    together with the parts of Python, numpy and scipy they rely on.

    Numbers.  A finite Python float is kept as the rational it stands
    for, and the three non-finite floats that [float()] can return are
    separate values.  Addition, subtraction, multiplication and division
    give the exact result rounded to the nearest binary64 value, ties to
    even, as IEEE 754 prescribes; signed zeros are not told apart.

    State.  The handlers are closures over the widgets and over the two
    variables [current_solution] and [solution_params]; the model passes
    one record [App] holding the values they read and write.  What a
    handler does to the outside (calling [solve_ivp], sampling a curve,
    writing a file, opening the browser) is kept in lists of that record,
    so that a statement can say that a call was or was not made.

    Libraries.  Python's parser and arithmetic, [float()], scipy's
    integrator, matplotlib and the file system are parameters ([Interp],
    [Env]): every general theorem holds for all of them.  [PyText] and
    [Exact] give one executable instance, used for the worked inputs. *)

From Stdlib Require Import String Ascii List ZArith QArith Qround Qabs Bool Lia Lqa.
From Stdlib Require Import DecimalString.
Import ListNotations.

Set Warnings "-register-all".

Local Open Scope string_scope.

(* ================================================================== *)
(** ** Python floats *)

Module PyFloat.

Inductive num : Type :=
| Fin (q : Q)
| PInf
| NInf
| NaN.

Definition is_finite (x : num) : bool :=
  match x with Fin _ => true | _ => false end.

(** An integer as a float; exact below [2 ^ 53], which covers the integers
    the handlers convert (the sample indices). *)
Definition of_Z (z : Z) : num := Fin (inject_Z z).
Definition of_nat (n : nat) : num := of_Z (Z.of_nat n).

(** Equality of values: rationals are compared as fractions. *)
Definition num_eq (x y : num) : Prop :=
  match x, y with
  | Fin a, Fin b => a == b
  | PInf, PInf | NInf, NInf | NaN, NaN => True
  | _, _ => False
  end.

(** [x == y] of Python: false as soon as a NaN is involved. *)
Definition eqb (x y : num) : bool :=
  match x, y with
  | Fin a, Fin b => Qeq_bool a b
  | PInf, PInf | NInf, NInf => true
  | _, _ => false
  end.

(** [x <= y] of Python. *)
Definition leb (x y : num) : bool :=
  match x, y with
  | NaN, _ | _, NaN => false
  | NInf, _ => true
  | _, PInf => true
  | Fin a, Fin b => Qle_bool a b
  | _, _ => false
  end.

(** [x < y] of Python. *)
Definition ltb (x y : num) : bool :=
  match x, y with
  | NaN, _ | _, NaN => false
  | Fin a, Fin b => negb (Qle_bool b a)
  | NInf, NInf | PInf, PInf => false
  | NInf, _ => true
  | _, PInf => true
  | _, _ => false
  end.

Definition neg (x : num) : num :=
  match x with
  | Fin a => Fin (- a)
  | PInf => NInf
  | NInf => PInf
  | NaN => NaN
  end.

(** *** Rounding to binary64 *)

(** [2 ^ e] for any integer [e]. *)
Definition pow2 (e : Z) : Q :=
  if (0 <=? e)%Z then inject_Z (2 ^ e) else 1 # Z.to_pos (2 ^ (- e)).

(** The integer [e] with [2 ^ e <= q < 2 ^ (e + 1)], for a positive [q]. *)
Definition ilog2 (q : Q) : Z :=
  let g := (Z.log2 (Qnum q) - Z.log2 (Zpos (Qden q)))%Z in
  if Qle_bool (pow2 g) q then g else (g - 1)%Z.

(** The nearest integer, ties to the even one. *)
Definition nearest_even (q : Q) : Z :=
  let f := Qfloor q in
  let r := q - inject_Z f in
  match Qcompare r (1 # 2) with
  | Lt => f
  | Gt => (f + 1)%Z
  | Eq => if Z.even f then f else (f + 1)%Z
  end.

(** The exponent of the last place of the binary64 values around a
    positive [q]: 53 significant bits, and nothing finer than [2 ^ -1074]
    (the subnormal range). *)
Definition last_place (q : Q) : Z := Z.max (ilog2 q - 52) (-1074).

(** Rounding of a fraction in lowest terms: the significand is rounded to
    an integer at the last place; a result that reaches [2 ^ 1024] is an
    overflow. *)
Definition round_canon (q : Q) : num :=
  match Qnum q with
  | Z0 => Fin 0
  | _ =>
      let a := Qabs q in
      let k := last_place a in
      let r := inject_Z (nearest_even (a / pow2 k)) * pow2 k in
      if Qle_bool (pow2 1024) r
      then (if Qle_bool 0 q then PInf else NInf)
      else Fin (Qred (if Qle_bool 0 q then r else - r))
  end.

(** The binary64 value nearest to a rational. *)
Definition round64 (q : Q) : num := round_canon (Qred q).

Definition round_num (x : num) : num :=
  match x with
  | Fin a => round64 a
  | _ => x
  end.

(** *** Arithmetic *)

Definition add (x y : num) : num :=
  match x, y with
  | NaN, _ | _, NaN => NaN
  | Fin a, Fin b => round64 (a + b)
  | PInf, NInf | NInf, PInf => NaN
  | PInf, _ | _, PInf => PInf
  | NInf, _ | _, NInf => NInf
  end.

Definition sub (x y : num) : num := add x (neg y).

(** Sign of a value that is not NaN: [Lt] negative, [Eq] zero, [Gt]
    positive. *)
Definition sign (x : num) : comparison :=
  match x with
  | Fin a => Qcompare a 0
  | PInf => Gt
  | NInf => Lt
  | NaN => Eq
  end.

Definition inf_of_sign (s1 s2 : comparison) : num :=
  match s1, s2 with
  | Eq, _ | _, Eq => NaN
  | Gt, Gt | Lt, Lt => PInf
  | _, _ => NInf
  end.

Definition mul (x y : num) : num :=
  match x, y with
  | NaN, _ | _, NaN => NaN
  | Fin a, Fin b => round64 (a * b)
  | _, _ => inf_of_sign (sign x) (sign y)
  end.

(** Division as numpy performs it: dividing by zero does not raise, it
    gives an infinity (or NaN for [0/0]). *)
Definition div (x y : num) : num :=
  match x, y with
  | NaN, _ | _, NaN => NaN
  | Fin a, Fin b =>
      if Qeq_bool b 0 then inf_of_sign (sign x) Gt else round64 (a / b)
  | Fin _, _ => Fin 0
  | _, Fin _ =>
      inf_of_sign (sign x) (match sign y with Eq => Gt | s => s end)
  | _, _ => NaN
  end.

End PyFloat.
Export PyFloat.

(* ================================================================== *)
(** ** numpy *)

Module Numpy.

(** [np.arange(0, n)] as floats. *)
Definition arange (n : nat) : list num := map PyFloat.of_nat (seq 0 n).

(** Replace the last element of a list ([y[-1] = v]). *)
Fixpoint set_last (l : list num) (v : num) : list num :=
  match l with
  | [] => []
  | [_] => [v]
  | x :: r => x :: set_last r v
  end.

(** [np.linspace(start, stop, n)] with the default [endpoint=True], as
    numpy's [function_base.linspace] computes it:
    [div = n - 1], [delta = stop - start], [y = arange(0, n)],
    [step = delta / div]; [y = y * step] (or [y / div * delta] when
    [step == 0]); [y += start]; finally [y[-1] = stop] when [n > 1]. *)
Definition linspace (start stop : num) (n : nat) : list num :=
  let dv := (n - 1)%nat in
  let delta := PyFloat.sub stop start in
  let y := arange n in
  let y :=
    if (0 <? dv)%nat then
      let step := PyFloat.div delta (PyFloat.of_nat dv) in
      if PyFloat.eqb step (Fin 0)
      then map (fun i => PyFloat.mul (PyFloat.div i (PyFloat.of_nat dv)) delta) y
      else map (fun i => PyFloat.mul i step) y
    else map (fun i => PyFloat.mul i delta) y in
  let y := map (fun v => PyFloat.add v start) y in
  if (1 <? n)%nat then set_last y stop else y.

End Numpy.
Export Numpy.

(* ================================================================== *)
(** ** Python expressions, values and exceptions *)

Module Py.

Inductive binop : Type := Add | Sub | Mult | Div | FloorDiv | Pow.
Inductive unop : Type := UAdd | USub.

(** Expressions of the calculator's fragment of Python. *)
Inductive expr : Type :=
| EInt (z : Z)
| EFloat (q : Q)
| EName (id : string)
| EBinOp (op : binop) (l r : expr)
| EUnaryOp (op : unop) (e : expr)
| ECall (f : expr) (args : list expr)
| EAttribute (e : expr) (attr : string)
| ETuple (items : list expr)
| EEllipsis.

(** What the text [lambda <params>: ...] handed to [eval] parses to.  A
    lambda body is a single expression, so a comma at the top level of the
    text ends the lambda and makes the whole text a tuple display whose
    first item is the lambda. *)
Inductive source : Type :=
| SLambda (params : list string) (body : expr)
| STuple (params : list string) (body : expr) (rest : list expr).

Inductive ufunc : Type := Sin | Cos | Exp | Log.

Inductive value : Type :=
| VInt (z : Z)
| VFloat (x : num)
| VUfunc (f : ufunc)
| VBuiltin (name : string)
| VClosure (params : list string) (body : expr)
| VTuple (items : list value)
| VEllipsis.

Inductive exn_class : Type :=
| SyntaxError | NameError | ValueError | TypeError | ZeroDivisionError
| AttributeError | OtherError.

(** An exception: its class and [str(err)]. *)
Record exn : Type := mkExn { exn_class_of : exn_class; exn_str : string }.

Inductive result (A : Type) : Type :=
| Ok (a : A)
| Raise (e : exn).
Arguments Ok {A} a.
Arguments Raise {A} e.

Definition bind {A B : Type} (r : result A) (k : A -> result B) : result B :=
  match r with
  | Ok a => k a
  | Raise e => Raise e
  end.

Definition is_name_error (e : exn) : bool :=
  match exn_class_of e with NameError => true | _ => false end.

Definition is_syntax_error (e : exn) : bool :=
  match exn_class_of e with SyntaxError => true | _ => false end.

(** The NameError Python raises for a name found in no namespace. *)
Definition name_error (id : string) : exn :=
  mkExn NameError ("name '" ++ id ++ "' is not defined").

Definition syntax_error : exn := mkExn SyntaxError "invalid syntax".

Fixpoint assoc {A : Type} (k : string) (l : list (string * A)) : option A :=
  match l with
  | [] => None
  | (k', v) :: r => if String.eqb k k' then Some v else assoc k r
  end.

(** The globals dictionary that [resolver_ecuacion] passes to [eval]. *)
Definition eval_globals : list (string * value) :=
  [ ("sin", VUfunc Sin); ("cos", VUfunc Cos);
    ("exp", VUfunc Exp); ("log", VUfunc Log) ].

(** The names the specification allows in an equation. *)
Definition whitelist : list string := ["t"; "y"; "sin"; "cos"; "exp"; "log"].

(** The operations of the interpreter that the model leaves abstract. *)
Record Interp : Type := {
  (** Python's parser on the text given to [eval]; [None] is SyntaxError. *)
  py_parse : string -> option source;
  (** The [builtins] module: [eval] adds it to a globals dictionary that
      has no [__builtins__] key. *)
  builtins : string -> option value;
  binary_op : binop -> value -> value -> result value;
  unary_op : unop -> value -> result value;
  (** Calling an object that is not a lambda of the text. *)
  call_object : value -> list value -> result value;
  getattr : value -> string -> result value;
}.

Section Eval.
Context (ip : Interp).

(** Name lookup: local variables, then globals, then builtins. *)
Definition resolve (locals : list (string * value)) (id : string)
  : option value :=
  match assoc id locals with
  | Some v => Some v
  | None =>
      match assoc id eval_globals with
      | Some v => Some v
      | None => builtins ip id
      end
  end.

Fixpoint eval_expr (locals : list (string * value)) (e : expr)
  : result value :=
  match e with
  | EInt z => Ok (VInt z)
  | EFloat q => Ok (VFloat (PyFloat.round64 q))
  | EName id =>
      match resolve locals id with
      | Some v => Ok v
      | None => Raise (name_error id)
      end
  | EBinOp op l r =>
      bind (eval_expr locals l) (fun a =>
      bind (eval_expr locals r) (fun b =>
      binary_op ip op a b))
  | EUnaryOp op e1 =>
      bind (eval_expr locals e1) (unary_op ip op)
  | ECall f args =>
      bind (eval_expr locals f) (fun fv =>
      bind ((fix eval_args (l : list expr) : result (list value) :=
               match l with
               | [] => Ok []
               | a :: r =>
                   bind (eval_expr locals a) (fun v =>
                   bind (eval_args r) (fun vs => Ok (v :: vs)))
               end) args) (fun vs =>
      call_object ip fv vs))
  | EAttribute e1 attr =>
      bind (eval_expr locals e1) (fun v => getattr ip v attr)
  | ETuple items =>
      bind ((fix eval_items (l : list expr) : result (list value) :=
               match l with
               | [] => Ok []
               | a :: r =>
                   bind (eval_expr locals a) (fun v =>
                   bind (eval_items r) (fun vs => Ok (v :: vs)))
               end) items) (fun vs => Ok (VTuple vs))
  | EEllipsis => Ok VEllipsis
  end.

Fixpoint eval_list (locals : list (string * value)) (l : list expr)
  : result (list value) :=
  match l with
  | [] => Ok []
  | a :: r =>
      bind (eval_expr locals a) (fun v =>
      bind (eval_list locals r) (fun vs => Ok (v :: vs)))
  end.

(** Evaluating the parsed text: a lambda becomes a function object and
    nothing in its body is looked up; the further items of a tuple are
    evaluated at once, left to right, with no local variables. *)
Definition eval_source (s : source) : result value :=
  match s with
  | SLambda ps body => Ok (VClosure ps body)
  | STuple ps body rest =>
      bind (eval_list [] rest) (fun vs =>
      Ok (VTuple (VClosure ps body :: vs)))
  end.

(** [eval(text, {sin, cos, exp, log})]. *)
Definition py_eval (text : string) : result value :=
  match py_parse ip text with
  | None => Raise syntax_error
  | Some s => eval_source s
  end.

(** Binding positional arguments to the parameters of a lambda. *)
Fixpoint bind_args (ps : list string) (vs : list value)
  : option (list (string * value)) :=
  match ps, vs with
  | [], [] => Some []
  | p :: ps', v :: vs' =>
      match bind_args ps' vs' with
      | Some l => Some ((p, v) :: l)
      | None => None
      end
  | _, _ => None
  end.

(** Calling a value with positional arguments. *)
Definition call_value (f : value) (vs : list value) : result value :=
  match f with
  | VClosure ps body =>
      match bind_args ps vs with
      | Some locals => eval_expr locals body
      | None => Raise (mkExn TypeError "<lambda>() argument mismatch")
      end
  | _ => call_object ip f vs
  end.

End Eval.

End Py.
Export Py.

(* ================================================================== *)
(** ** The libraries behind the handlers *)

Module Libs.

(** The object [solve_ivp] returns: its [success] flag, the dense output
    [sol] as a function of t, and the last computed value
    [y[0][-1]]. *)
Record OdeResult : Type := {
  success : bool;
  sol : num -> num;
  y_final : num;
}.

(** How [with open(path, "w") as f: f.write(text)] ends: [open] raises
    and no file is made; the file is made but writing or closing it
    raises, and it is left with [content]; or it holds the text. *)
Inductive written : Type :=
| NotOpened (e : exn)
| Broken (content : string) (e : exn)
| Written.

(** The library operations the model leaves abstract. *)
Record Env : Type := {
  interp : Interp;
  (** [float(text)]; [None] is ValueError. *)
  py_float : string -> option num;
  (** [np.asarray(v, dtype=float)] on the value the equation returns. *)
  as_float : value -> result num;
  (** The checks of [solve_ivp] on (t0, tf, y0) that precede the first
      evaluation of the equation. *)
  ivp_validate : num -> num -> num -> result unit;
  (** The Runge-Kutta 4(5) integration with [dense_output=True] and
      [rtol=1e-5]: right-hand side, t0, tf, y0 and the value of the
      right-hand side at (t0, y0). *)
  rk45 : (num -> num -> result num) -> num -> num -> num -> num ->
         result OdeResult;
  (** [str(x)] and [format(x, '.6f')] of a float, [str(l)] of a list of
      floats, [round(x, 3)]. *)
  str_float : num -> string;
  format_6f : num -> string;
  str_float_list : list num -> string;
  round3 : num -> num;
  (** Line 343: the temporary png file, by its path. *)
  named_temporary_file : result string;
  (** Lines 349-358: the matplotlib figure (title, t values, y values)
      saved into the file of the given path. *)
  savefig : string -> list num -> list num -> string -> result unit;
  (** Lines 148-155: the matplotlib figure of the external export. *)
  plot_figure : string -> list num -> list num -> result unit;
  (** [tempfile.gettempdir()] and [os.makedirs(d, exist_ok=True)]. *)
  gettempdir : string;
  makedirs : string -> result unit;
  (** Lines 227-228: writing the text into the file of the given path. *)
  write_text : string -> string -> written;
  (** Line 230: [plt.close()]. *)
  plt_close : result unit;
  (** [webbrowser.open]. *)
  webbrowser_open : string -> result unit;
}.

Section Scipy.
Context (env : Env).

(** The right-hand side [fun(t, y)] as [solve_ivp] evaluates it: the
    call of the compiled equation, converted to a float. *)
Definition rhs (f : value) (t y : num) : result num :=
  bind (call_value (interp env) f [VFloat t; VFloat y]) (as_float env).

(** [solve_ivp(f, (t0, tf), [y0], dense_output=True, method='RK45',
    rtol=1e-5)]: the solver object evaluates the right-hand side at
    (t0, y0) when it is built, before the first step. *)
Definition solve_ivp (f : value) (t0 tf y0 : num) : result OdeResult :=
  bind (ivp_validate env t0 tf y0) (fun _ =>
  bind (rhs f t0 y0) (fun f0 =>
  rk45 env (rhs f) t0 tf y0 f0)).

End Scipy.

End Libs.
Export Libs.

(* ================================================================== *)
(** ** The application: the state [main] closes over and its handlers *)

Module Calculator.

Definition dq : string := String (ascii_of_nat 34) EmptyString.
Definition nl : string := String (ascii_of_nat 10) EmptyString.

Inductive color : Type := GREEN_700 | RED_600.

(** [solution_params]. *)
Record Params : Type := {
  p_t0 : num;
  p_tf : num;
  p_equation : string;
}.

Record App : Type := mkApp {
  (** [ecuacion_input.value] *)
  ecuacion_value : option string;
  (** [t0_input.value] *)
  t0_value : option string;
  (** [y0_input.value] *)
  y0_value : option string;
  (** [tf_input.value] *)
  tf_value : option string;
  (** [resultado_text.value] *)
  resultado_value : string;
  (** [resultado_text.color] *)
  resultado_color : color;
  (** [grafica_imagen.src] *)
  grafica_src : option string;
  (** [grafica_imagen.visible] *)
  grafica_visible : bool;
  (** [boton_grafica.disabled] *)
  boton_grafica_disabled : bool;
  (** [estado_grafica.value] *)
  estado_grafica_value : string;
  (** the variable [current_solution] of [main] *)
  current_solution : option OdeResult;
  (** the dictionary [solution_params] of [main] *)
  solution_params : Params;
  (** every call of [solve_ivp] made so far, latest first: function, t0, tf, y0 *)
  ivp_calls : list (value * num * num * num);
  (** every pair ([t_vals], [y_vals]) computed so far, latest first *)
  samples : list (list num * list num);
  (** every file written so far, latest first: path and content *)
  files : list (string * string);
  (** every address opened in the browser so far, latest first *)
  browser : list string;
}.

Definition set_ecuacion_value (v : option string) (st : App) : App :=
  mkApp v (t0_value st) (y0_value st) (tf_value st) (resultado_value st) (resultado_color st) (grafica_src st) (grafica_visible st) (boton_grafica_disabled st) (estado_grafica_value st) (current_solution st) (solution_params st) (ivp_calls st) (samples st) (files st) (browser st).
Definition set_t0_value (v : option string) (st : App) : App :=
  mkApp (ecuacion_value st) v (y0_value st) (tf_value st) (resultado_value st) (resultado_color st) (grafica_src st) (grafica_visible st) (boton_grafica_disabled st) (estado_grafica_value st) (current_solution st) (solution_params st) (ivp_calls st) (samples st) (files st) (browser st).
Definition set_y0_value (v : option string) (st : App) : App :=
  mkApp (ecuacion_value st) (t0_value st) v (tf_value st) (resultado_value st) (resultado_color st) (grafica_src st) (grafica_visible st) (boton_grafica_disabled st) (estado_grafica_value st) (current_solution st) (solution_params st) (ivp_calls st) (samples st) (files st) (browser st).
Definition set_tf_value (v : option string) (st : App) : App :=
  mkApp (ecuacion_value st) (t0_value st) (y0_value st) v (resultado_value st) (resultado_color st) (grafica_src st) (grafica_visible st) (boton_grafica_disabled st) (estado_grafica_value st) (current_solution st) (solution_params st) (ivp_calls st) (samples st) (files st) (browser st).
Definition set_resultado_value (v : string) (st : App) : App :=
  mkApp (ecuacion_value st) (t0_value st) (y0_value st) (tf_value st) v (resultado_color st) (grafica_src st) (grafica_visible st) (boton_grafica_disabled st) (estado_grafica_value st) (current_solution st) (solution_params st) (ivp_calls st) (samples st) (files st) (browser st).
Definition set_resultado_color (v : color) (st : App) : App :=
  mkApp (ecuacion_value st) (t0_value st) (y0_value st) (tf_value st) (resultado_value st) v (grafica_src st) (grafica_visible st) (boton_grafica_disabled st) (estado_grafica_value st) (current_solution st) (solution_params st) (ivp_calls st) (samples st) (files st) (browser st).
Definition set_grafica_src (v : option string) (st : App) : App :=
  mkApp (ecuacion_value st) (t0_value st) (y0_value st) (tf_value st) (resultado_value st) (resultado_color st) v (grafica_visible st) (boton_grafica_disabled st) (estado_grafica_value st) (current_solution st) (solution_params st) (ivp_calls st) (samples st) (files st) (browser st).
Definition set_grafica_visible (v : bool) (st : App) : App :=
  mkApp (ecuacion_value st) (t0_value st) (y0_value st) (tf_value st) (resultado_value st) (resultado_color st) (grafica_src st) v (boton_grafica_disabled st) (estado_grafica_value st) (current_solution st) (solution_params st) (ivp_calls st) (samples st) (files st) (browser st).
Definition set_boton_grafica_disabled (v : bool) (st : App) : App :=
  mkApp (ecuacion_value st) (t0_value st) (y0_value st) (tf_value st) (resultado_value st) (resultado_color st) (grafica_src st) (grafica_visible st) v (estado_grafica_value st) (current_solution st) (solution_params st) (ivp_calls st) (samples st) (files st) (browser st).
Definition set_estado_grafica_value (v : string) (st : App) : App :=
  mkApp (ecuacion_value st) (t0_value st) (y0_value st) (tf_value st) (resultado_value st) (resultado_color st) (grafica_src st) (grafica_visible st) (boton_grafica_disabled st) v (current_solution st) (solution_params st) (ivp_calls st) (samples st) (files st) (browser st).
Definition set_current_solution (v : option OdeResult) (st : App) : App :=
  mkApp (ecuacion_value st) (t0_value st) (y0_value st) (tf_value st) (resultado_value st) (resultado_color st) (grafica_src st) (grafica_visible st) (boton_grafica_disabled st) (estado_grafica_value st) v (solution_params st) (ivp_calls st) (samples st) (files st) (browser st).
Definition set_solution_params (v : Params) (st : App) : App :=
  mkApp (ecuacion_value st) (t0_value st) (y0_value st) (tf_value st) (resultado_value st) (resultado_color st) (grafica_src st) (grafica_visible st) (boton_grafica_disabled st) (estado_grafica_value st) (current_solution st) v (ivp_calls st) (samples st) (files st) (browser st).
Definition set_ivp_calls (v : list (value * num * num * num)) (st : App) : App :=
  mkApp (ecuacion_value st) (t0_value st) (y0_value st) (tf_value st) (resultado_value st) (resultado_color st) (grafica_src st) (grafica_visible st) (boton_grafica_disabled st) (estado_grafica_value st) (current_solution st) (solution_params st) v (samples st) (files st) (browser st).
Definition set_samples (v : list (list num * list num)) (st : App) : App :=
  mkApp (ecuacion_value st) (t0_value st) (y0_value st) (tf_value st) (resultado_value st) (resultado_color st) (grafica_src st) (grafica_visible st) (boton_grafica_disabled st) (estado_grafica_value st) (current_solution st) (solution_params st) (ivp_calls st) v (files st) (browser st).
Definition set_files (v : list (string * string)) (st : App) : App :=
  mkApp (ecuacion_value st) (t0_value st) (y0_value st) (tf_value st) (resultado_value st) (resultado_color st) (grafica_src st) (grafica_visible st) (boton_grafica_disabled st) (estado_grafica_value st) (current_solution st) (solution_params st) (ivp_calls st) (samples st) v (browser st).
Definition set_browser (v : list string) (st : App) : App :=
  mkApp (ecuacion_value st) (t0_value st) (y0_value st) (tf_value st) (resultado_value st) (resultado_color st) (grafica_src st) (grafica_visible st) (boton_grafica_disabled st) (estado_grafica_value st) (current_solution st) (solution_params st) (ivp_calls st) (samples st) (files st) v.

(** The initial values of [main]: empty fields, no solution, the graph
    button disabled. *)
Definition initial : App :=
  {| ecuacion_value := None; t0_value := None; y0_value := None;
     tf_value := None;
     resultado_value := EmptyString; resultado_color := GREEN_700;
     grafica_src := None; grafica_visible := false;
     boton_grafica_disabled := true;
     estado_grafica_value := EmptyString;
     current_solution := None;
     solution_params :=
       {| p_t0 := PyFloat.of_Z 0; p_tf := PyFloat.of_Z 0;
          p_equation := EmptyString |};
     ivp_calls := []; samples := []; files := []; browser := [] |}.

(** [not field.value]: a field is missing when it is [None] or empty. *)
Definition falsy (v : option string) : bool :=
  match v with
  | None => true
  | Some s => String.eqb s EmptyString
  end.

(** [field.value or ''], the empty text for [None]. *)
Definition or_empty (v : option string) : string :=
  match v with
  | None => EmptyString
  | Some s => s
  end.

(** [text.replace("^", "**")]. *)
Fixpoint replace_caret (s : string) : string :=
  match s with
  | EmptyString => EmptyString
  | String c r =>
      if Ascii.eqb c "^"%char
      then String "*"%char (String "*"%char (replace_caret r))
      else String c (replace_caret r)
  end.

Definition show_error (message : string) (st : App) : App :=
  set_resultado_color RED_600
    (set_resultado_value ("❌ Error: " ++ message) st).

Definition show_success (message : string) (st : App) : App :=
  set_resultado_color GREEN_700 (set_resultado_value message st).

(** The keypad, row by row. *)
Definition botones : list (list string) :=
  [ ["+"; "-"; "*"; "/"; "^"];
    ["t"; "y"; "("; ")"; "."];
    ["0"; "1"; "2"; "3"; "4"];
    ["5"; "6"; "7"; "8"; "9"];
    ["sin(t)"; "cos(t)"; "exp(t)"; "log(t)"] ].

Definition agregar_simbolo (simbolo : string) (st : App) : App :=
  set_ecuacion_value (Some (or_empty (ecuacion_value st) ++ simbolo)) st.

Definition limpiar_ecuacion (st : App) : App :=
  set_boton_grafica_disabled true
    (set_current_solution None
      (set_grafica_visible false
        (set_tf_value (Some EmptyString)
          (set_y0_value (Some EmptyString)
            (set_t0_value (Some EmptyString)
              (set_resultado_value EmptyString
                (set_ecuacion_value (Some EmptyString) st))))))).

(** The number of samples of a curve. *)
Definition sample_count : nat := 500.

(** Lines 145-146 and 346-347: the grid and the dense solution on it. *)
Definition sample (s : OdeResult) (t0 tf : num) : list num * list num :=
  let t_vals := Numpy.linspace t0 tf sample_count in
  let y_vals := map (sol s) t_vals in
  (t_vals, y_vals).

(** The template of [html_content], lines 158-174, up to the equation. *)
Definition html_before_equation : string :=
  String.concat EmptyString
    [ nl; "            <!DOCTYPE html>";
      nl; "            <html>";
      nl; "            <head>";
      nl; "                <title>Gráfica de Ecuación Diferencial</title>";
      nl; "                <script src="; dq; "https://cdn.jsdelivr.net/npm/chart.js"; dq; "></script>";
      nl; "                <style>";
      nl; "                    body { font-family: Arial, sans-serif; margin: 20px; }";
      nl; "                    .container { max-width: 800px; margin: 0 auto; }";
      nl; "                    h2 { color: #2c3e50; }";
      nl; "                    .equation { font-style: italic; margin-bottom: 20px; }";
      nl; "                </style>";
      nl; "            </head>";
      nl; "            <body>";
      nl; "                <div class="; dq; "container"; dq; ">";
      nl; "                    <h2>Solución de la Ecuación Diferencial</h2>";
      nl; "                    <div class="; dq; "equation"; dq; ">y' = " ].

(** The template of [html_content], lines 174-183, from the equation to the labels. *)
Definition html_before_labels : string :=
  String.concat EmptyString
    [ "</div>";
      nl; "                    <canvas id="; dq; "solutionChart"; dq; " width="; dq; "800"; dq; " height="; dq; "400"; dq; "></canvas>";
      nl; "                </div>";
      nl; "                ";
      nl; "                <script>";
      nl; "                    const ctx = document.getElementById('solutionChart').getContext('2d');";
      nl; "                    const chart = new Chart(ctx, {";
      nl; "                        type: 'line',";
      nl; "                        data: {";
      nl; "                            labels: " ].

(** The template of [html_content], lines 183-186, from the labels to the data. *)
Definition html_before_data : string :=
  String.concat EmptyString
    [ ",";
      nl; "                            datasets: [{";
      nl; "                                label: 'y(t)',";
      nl; "                                data: " ].

(** The template of [html_content], lines 186-225, after the data. *)
Definition html_after_data : string :=
  String.concat EmptyString
    [ ",";
      nl; "                                borderColor: 'rgba(65, 105, 225, 1)',";
      nl; "                                backgroundColor: 'rgba(65, 105, 225, 0.1)',";
      nl; "                                borderWidth: 2,";
      nl; "                                tension: 0.3,";
      nl; "                                pointRadius: 0";
      nl; "                            }]";
      nl; "                        },";
      nl; "                        options: {";
      nl; "                            responsive: true,";
      nl; "                            plugins: {";
      nl; "                                title: {";
      nl; "                                    display: true,";
      nl; "                                    text: 'Solución de la Ecuación Diferencial'";
      nl; "                                },";
      nl; "                                tooltip: {";
      nl; "                                    mode: 'index',";
      nl; "                                    intersect: false,";
      nl; "                                }";
      nl; "                            },";
      nl; "                            scales: {";
      nl; "                                x: {";
      nl; "                                    title: {";
      nl; "                                        display: true,";
      nl; "                                        text: 't'";
      nl; "                                    }";
      nl; "                                },";
      nl; "                                y: {";
      nl; "                                    title: {";
      nl; "                                        display: true,";
      nl; "                                        text: 'y(t)'";
      nl; "                                    }";
      nl; "                                }";
      nl; "                            }";
      nl; "                        }";
      nl; "                    });";
      nl; "                </script>";
      nl; "            </body>";
      nl; "            </html>";
      nl; "            " ].

Definition html_content (ecuacion labels data : string) : string :=
  html_before_equation ++ ecuacion ++ html_before_labels ++ labels
    ++ html_before_data ++ data ++ html_after_data.

Definition path_join (a b : string) : string := a ++ "/" ++ b.

(** Where in [resolver_ecuacion] an exception reached the handler of
    line 364: in [eval], in [solve_ivp], or in the plot that follows the
    assignment of [current_solution]. *)
Inductive stage : Type := Compiling | Solving | Plotting.

(** The return points of [resolver_ecuacion]. *)
Inductive exit : Type :=
| MissingField        (* line 274 *)
| SyntaxErr           (* line 293 *)
| UnknownSymbol       (* line 296 *)
| NotANumber          (* line 305 *)
| InvalidRange        (* line 310 *)
| SolverFailed        (* line 324 *)
| Caught (during : stage) (e : exn)   (* line 365 *)
| Solved.             (* the end of the try block *)

(** The outcome of the export action. *)
Inductive export_result : Type :=
| NoSolution
| Artifact (path content : string)
| ExportError.

(** The exits at which the equation was not solved: every return point
    before the assignment of [current_solution]. *)
Definition solve_failed (x : exit) : bool :=
  match x with
  | Solved | Caught Plotting _ => false
  | _ => true
  end.

(** Characters with a meaning of their own in HTML text. *)
Definition html_special (c : ascii) : bool :=
  Ascii.eqb c "<"%char || Ascii.eqb c ">"%char || Ascii.eqb c "&"%char.

(** A text that can stand in HTML character data as it is. *)
Definition html_text_safe (s : string) : bool :=
  forallb (fun c => negb (html_special c)) (list_ascii_of_string s).

(** The characters the keypad can put into the equation field. *)
Definition keypad_alphabet : list ascii :=
  concat (map list_ascii_of_string (concat botones)).

Definition keypad_text (s : string) : bool :=
  forallb (fun c => existsb (Ascii.eqb c) keypad_alphabet)
          (list_ascii_of_string s).

(** Both the equation field and the stored equation are keypad text. *)
Definition only_keypad (st : App) : Prop :=
  keypad_text (or_empty (ecuacion_value st)) = true
  /\ keypad_text (p_equation (solution_params st)) = true.

Section Handlers.
Context (env : Env).

(** [crear_grafica_externa()]; [timestamp] is
    [datetime.now().strftime(...)].  Any exception makes it return
    [None], whatever was done before it was raised: a file that was made
    stays, also when the writing broke off or when [plt.close()] raises
    after the file was written. *)
Definition crear_grafica_externa (timestamp : string) (st : App)
  : option string * App :=
  let t0 := p_t0 (solution_params st) in
  let tf := p_tf (solution_params st) in
  let ecuacion := p_equation (solution_params st) in
  match current_solution st with
  | None => (None, st)
  | Some s =>
      let temp_dir := path_join (gettempdir env) "calcediff" in
      match makedirs env temp_dir with
      | Raise _ => (None, st)
      | Ok _ =>
          let file_path :=
            path_join temp_dir ("grafica_" ++ timestamp ++ ".html") in
          let t_vals := fst (sample s t0 tf) in
          let y_vals := snd (sample s t0 tf) in
          let st := set_samples ((t_vals, y_vals) :: samples st) st in
          match plot_figure env ("Solución de y' = " ++ ecuacion)
                            t_vals y_vals with
          | Raise _ => (None, st)
          | Ok _ =>
              let html :=
                html_content ecuacion
                  (str_float_list env (map (round3 env) t_vals))
                  (str_float_list env y_vals) in
              match write_text env file_path html with
              | NotOpened _ => (None, st)
              | Broken content _ =>
                  (None, set_files ((file_path, content) :: files st) st)
              | Written =>
                  let st := set_files ((file_path, html) :: files st) st in
                  match plt_close env with
                  | Raise _ => (None, st)
                  | Ok _ => (Some file_path, st)
                  end
              end
          end
      end
  end.

(** [mostrar_grafica_externa(e)]: the state after the click and whether
    the worker thread was started. *)
Definition mostrar_grafica_externa (st : App) : App * bool :=
  match current_solution st with
  | None => (show_error "Primero debes resolver la ecuación" st, false)
  | Some _ =>
      (set_estado_grafica_value "Generando gráfica..."
         (set_boton_grafica_disabled true st), true)
  end.

(** The body of the worker thread, run to its end; the assignments it
    hands to [page.invoke_async] are taken as carried out. *)
Definition worker (timestamp : string) (st : App) : App :=
  let r := crear_grafica_externa timestamp st in
  let st1 := snd r in
  let st2 :=
    match fst r with
    | Some p =>
        match webbrowser_open env ("file://" ++ p) with
        | Ok _ =>
            set_estado_grafica_value "Gráfica abierta en navegador"
              (set_browser (("file://" ++ p) :: browser st1) st1)
        | Raise e =>
            set_estado_grafica_value ("Error: " ++ exn_str e) st1
        end
    | None => set_estado_grafica_value "Error al generar gráfica" st1
    end in
  set_boton_grafica_disabled false st2.

(** Lines 326-362: what follows a successful integration. *)
Definition store_and_plot (s : OdeResult) (t0 tf : num) (st : App)
  : exit * App :=
  let ecuacion := or_empty (ecuacion_value st) in
  let st := set_current_solution (Some s) st in
  let st :=
    set_solution_params
      {| p_t0 := t0; p_tf := tf; p_equation := ecuacion |} st in
  let st :=
    show_success ("✅ y(" ++ str_float env tf ++ ") ≈ "
                    ++ format_6f env (y_final s)) st in
  let st := set_boton_grafica_disabled false st in
  let st :=
    set_estado_grafica_value
      "Haz clic en 'Ver gráfica' para visualizar" st in
  match named_temporary_file env with
  | Raise e => (Caught Plotting e, show_error (exn_str e) st)
  | Ok temp_path =>
      let t_vals := fst (sample s t0 tf) in
      let y_vals := snd (sample s t0 tf) in
      let st := set_samples ((t_vals, y_vals) :: samples st) st in
      match savefig env ("Solución de y' = " ++ ecuacion)
                    t_vals y_vals temp_path with
      | Raise e => (Caught Plotting e, show_error (exn_str e) st)
      | Ok _ =>
          (Solved, set_grafica_visible true
                     (set_grafica_src (Some temp_path) st))
      end
  end.

(** The state in which [solve_ivp] is entered: the call is recorded. *)
Definition entering (f : value) (t0 y0 tf : num) (st : App) : App :=
  set_ivp_calls ((f, t0, tf, y0) :: ivp_calls st) st.

(** [resolver_ecuacion(e)]: the return point taken and the state it
    leaves. *)
Definition resolver_ecuacion (st : App) : exit * App :=
  if falsy (ecuacion_value st) || falsy (t0_value st)
     || falsy (y0_value st) || falsy (tf_value st)
  then (MissingField, show_error "Todos los campos son obligatorios" st)
  else
    let expr_str := replace_caret (or_empty (ecuacion_value st)) in
    match py_eval (interp env) ("lambda t, y: " ++ expr_str) with
    | Raise e =>
        if is_syntax_error e
        then (SyntaxErr,
              show_error "La ecuación tiene errores de sintaxis" st)
        else if is_name_error e
        then (UnknownSymbol,
              show_error ("Variable no definida: " ++ exn_str e) st)
        else (Caught Compiling e, show_error (exn_str e) st)
    | Ok expr_lambda =>
        match py_float env (or_empty (t0_value st)) with
        | None =>
            (NotANumber, show_error "Los valores deben ser números" st)
        | Some t0 =>
        match py_float env (or_empty (y0_value st)) with
        | None =>
            (NotANumber, show_error "Los valores deben ser números" st)
        | Some y0 =>
        match py_float env (or_empty (tf_value st)) with
        | None =>
            (NotANumber, show_error "Los valores deben ser números" st)
        | Some tf =>
            if PyFloat.leb tf t0
            then (InvalidRange,
                  show_error
                    "El tiempo final (tf) debe ser mayor que el tiempo inicial (t0)"
                    st)
            else
              let st := entering expr_lambda t0 y0 tf st in
              match solve_ivp env expr_lambda t0 tf y0 with
              | Raise e => (Caught Solving e, show_error (exn_str e) st)
              | Ok s =>
                  if negb (success s)
                  then (SolverFailed,
                        show_error
                          "No se pudo resolver la ecuación diferencial"
                          st)
                  else store_and_plot s t0 tf st
              end
        end end end
    end.

(** The three readings [resolver_ecuacion] makes of the fields, in the
    order it makes them: all four fields filled in (line 272), the
    equation compiled (lines 277-290), the three numbers (lines 300-302). *)
Definition fields_present (st : App) : bool :=
  negb (falsy (ecuacion_value st) || falsy (t0_value st)
        || falsy (y0_value st) || falsy (tf_value st)).

Definition compiled (st : App) : result value :=
  py_eval (interp env)
    ("lambda t, y: " ++ replace_caret (or_empty (ecuacion_value st))).

Definition numbers (st : App) : option (num * num * num) :=
  match py_float env (or_empty (t0_value st)) with
  | None => None
  | Some t0 =>
      match py_float env (or_empty (y0_value st)) with
      | None => None
      | Some y0 =>
          match py_float env (or_empty (tf_value st)) with
          | None => None
          | Some tf => Some (t0, y0, tf)
          end
      end
  end.

(** The "Ver gráfica" action as a whole: the click handler and, when it
    starts the worker, the file the worker writes. *)
Definition exportCurrent (timestamp : string) (st : App)
  : export_result :=
  if snd (mostrar_grafica_externa st) then
    let r := crear_grafica_externa timestamp
               (fst (mostrar_grafica_externa st)) in
    match fst r, files (snd r) with
    | Some _, (path, html) :: _ => Artifact path html
    | _, _ => ExportError
    end
  else NoSolution.

(** What the user can do.  The equation field is read-only and filled
    by the keypad alone; a disabled button does not fire. *)
Inductive action : Type :=
| Press (simbolo : string)
| TypeT0 (text : string)
| TypeY0 (text : string)
| TypeTf (text : string)
| Resolver
| VerGrafica (timestamp : string)
| Limpiar.

Definition perform (a : action) (st : App) : App :=
  match a with
  | Press b =>
      if existsb (String.eqb b) (concat botones)
      then agregar_simbolo b st else st
  | TypeT0 s => set_t0_value (Some s) st
  | TypeY0 s => set_y0_value (Some s) st
  | TypeTf s => set_tf_value (Some s) st
  | Resolver => snd (resolver_ecuacion st)
  | VerGrafica ts =>
      if boton_grafica_disabled st then st
      else if snd (mostrar_grafica_externa st)
           then worker ts (fst (mostrar_grafica_externa st))
           else fst (mostrar_grafica_externa st)
  | Limpiar => limpiar_ecuacion st
  end.

Definition run (l : list action) (st : App) : App :=
  fold_left (fun s a => perform a s) l st.

(** No [Resolver] action of the list, run from [st], solves its
    equation. *)
Fixpoint all_solves_fail (l : list action) (st : App) : bool :=
  match l with
  | [] => true
  | a :: r =>
      match a with
      | Resolver => solve_failed (fst (resolver_ecuacion st))
      | _ => true
      end && all_solves_fail r (perform a st)
  end.

End Handlers.

End Calculator.
Export Calculator.

(* ================================================================== *)
(** ** Reading Python text: tokens, expressions, float literals

    An executable reader for the fragment of Python the calculator is
    about: integer and float literals, names, [+ - * / // **], unary signs,
    parentheses and tuples, calls, attribute access, [...], and a leading
    [lambda].  Text outside the fragment (comparisons, strings, keywords
    other than [lambda], ...) is refused. *)

Module PyText.

Local Open Scope list_scope.

Inductive token : Type :=
| TInt (z : Z)
| TFloat (q : Q)
| TName (id : string)
| TLambda
| TPlus | TMinus | TStar | TSlash | TDoubleSlash | TDoubleStar
| TLParen | TRParen | TComma | TColon | TDot | TEllipsis.

Definition is_digit (c : ascii) : bool :=
  let n := nat_of_ascii c in (48 <=? n)%nat && (n <=? 57)%nat.

Definition is_alpha (c : ascii) : bool :=
  let n := nat_of_ascii c in
  ((65 <=? n)%nat && (n <=? 90)%nat) || ((97 <=? n)%nat && (n <=? 122)%nat)
  || (n =? 95)%nat.

Definition is_space (c : ascii) : bool :=
  let n := nat_of_ascii c in (n =? 32)%nat || (n =? 9)%nat.

Definition digit_val (c : ascii) : Z := Z.of_nat (nat_of_ascii c) - 48.

(** The value of a run of decimal digits, most significant first. *)
Definition digits_val (ds : list ascii) : Z :=
  fold_left (fun acc c => 10 * acc + digit_val c)%Z ds 0%Z.

Definition keywords : list string :=
  [ "False"; "None"; "True"; "and"; "as"; "assert"; "async"; "await";
    "break"; "class"; "continue"; "def"; "del"; "elif"; "else"; "except";
    "finally"; "for"; "from"; "global"; "if"; "import"; "in"; "is";
    "nonlocal"; "not"; "or"; "pass"; "raise"; "return"; "try"; "while";
    "with"; "yield" ].

Definition mem (s : string) (l : list string) : bool :=
  existsb (String.eqb s) l.

(** What the tokenizer has read of the token in progress; character
    lists are kept in reverse. *)
Inductive pending : Type :=
| PNone
| PIdent (rev_chars : list ascii)
| PInt (rev_digits : list ascii)
| PFrac (rev_int rev_frac : list ascii)
| PExpMark (rev_int rev_frac : list ascii)
| PExpSign (rev_int rev_frac : list ascii) (negative : bool)
| PExp (rev_int rev_frac : list ascii) (negative : bool)
       (rev_exp : list ascii)
| PDots (n : nat)
| PStar
| PSlash.

Definition float_val (rev_int rev_frac : list ascii) (negative : bool)
           (rev_exp : list ascii) : Q :=
  let m := digits_val (rev rev_int ++ rev rev_frac) in
  let k := Z.of_nat (List.length rev_frac) in
  let e := digits_val (rev rev_exp) in
  let e := if negative then (- e - k)%Z else (e - k)%Z in
  Qred (if (0 <=? e)%Z
        then inject_Z (m * 10 ^ e)
        else Qmake m (Z.to_pos (10 ^ (- e)))).

(** An integer literal may start with 0 only when it is all zeros. *)
Definition int_literal_ok (ds : list ascii) : bool :=
  match ds with
  | c :: _ :: _ =>
      negb (Ascii.eqb c "0"%char) || (digits_val ds =? 0)%Z
  | _ => true
  end.

(** The tokens a finished [pending] stands for. *)
Definition flush (p : pending) : option (list token) :=
  match p with
  | PNone => Some []
  | PIdent rc =>
      let id := string_of_list_ascii (rev rc) in
      if String.eqb id "lambda" then Some [TLambda]
      else if mem id keywords then None
      else Some [TName id]
  | PInt rd =>
      if int_literal_ok (rev rd) then Some [TInt (digits_val (rev rd))]
      else None
  | PFrac ri rf => Some [TFloat (float_val ri rf false [])]
  | PExpMark _ _ => None
  | PExpSign _ _ _ => None
  | PExp ri rf neg re => Some [TFloat (float_val ri rf neg re)]
  | PDots n => Some (repeat TDot n)
  | PStar => Some [TStar]
  | PSlash => Some [TSlash]
  end.

(** Starting a token with the character [c]: the tokens completed at once
    and the new [pending]. *)
Definition start (c : ascii) : option (list token * pending) :=
  if is_space c then Some ([], PNone)
  else if is_digit c then Some ([], PInt [c])
  else if is_alpha c then Some ([], PIdent [c])
  else if Ascii.eqb c "."%char then Some ([], PDots 1)
  else if Ascii.eqb c "*"%char then Some ([], PStar)
  else if Ascii.eqb c "/"%char then Some ([], PSlash)
  else if Ascii.eqb c "+"%char then Some ([TPlus], PNone)
  else if Ascii.eqb c "-"%char then Some ([TMinus], PNone)
  else if Ascii.eqb c "("%char then Some ([TLParen], PNone)
  else if Ascii.eqb c ")"%char then Some ([TRParen], PNone)
  else if Ascii.eqb c ","%char then Some ([TComma], PNone)
  else if Ascii.eqb c ":"%char then Some ([TColon], PNone)
  else None.

(** The token in progress ends before [c]. *)
Definition flush_start (p : pending) (c : ascii)
  : option (list token * pending) :=
  match flush p, start c with
  | Some done, Some (more, p') => Some (done ++ more, p')
  | _, _ => None
  end.

Definition is_e (c : ascii) : bool :=
  Ascii.eqb c "e"%char || Ascii.eqb c "E"%char.

(** One character: the tokens completed by it and the new [pending]. *)
Definition step (p : pending) (c : ascii) : option (list token * pending) :=
  match p with
  | PNone => start c
  | PIdent rc =>
      if is_alpha c || is_digit c then Some ([], PIdent (c :: rc))
      else flush_start p c
  | PInt rd =>
      if is_digit c then Some ([], PInt (c :: rd))
      else if Ascii.eqb c "."%char then Some ([], PFrac rd [])
      else if is_e c then Some ([], PExpMark rd [])
      else if is_alpha c then None
      else flush_start p c
  | PFrac ri rf =>
      if is_digit c then Some ([], PFrac ri (c :: rf))
      else if is_e c then Some ([], PExpMark ri rf)
      else if is_alpha c then None
      else flush_start p c
  | PExpMark ri rf =>
      if is_digit c then Some ([], PExp ri rf false [c])
      else if Ascii.eqb c "+"%char then Some ([], PExpSign ri rf false)
      else if Ascii.eqb c "-"%char then Some ([], PExpSign ri rf true)
      else None
  | PExpSign ri rf neg =>
      if is_digit c then Some ([], PExp ri rf neg [c]) else None
  | PExp ri rf neg re =>
      if is_digit c then Some ([], PExp ri rf neg (c :: re))
      else if is_alpha c then None
      else flush_start p c
  | PDots n =>
      if is_digit c then Some (repeat TDot (n - 1), PFrac [] [c])
      else if Ascii.eqb c "."%char then
        if (n =? 2)%nat then Some ([TEllipsis], PNone)
        else Some ([], PDots (S n))
      else flush_start p c
  | PStar =>
      if Ascii.eqb c "*"%char then Some ([TDoubleStar], PNone)
      else flush_start p c
  | PSlash =>
      if Ascii.eqb c "/"%char then Some ([TDoubleSlash], PNone)
      else flush_start p c
  end.

Fixpoint lex (p : pending) (cs : list ascii) : option (list token) :=
  match cs with
  | [] => flush p
  | c :: r =>
      match step p c with
      | None => None
      | Some (done, p') =>
          match lex p' r with
          | None => None
          | Some more => Some (done ++ more)
          end
      end
  end.

Definition tokenize (s : string) : option (list token) :=
  lex PNone (list_ascii_of_string s).


(** *** Expressions *)

Definition parsed (A : Type) : Type := option (A * list token).

(** Recursive descent following Python's grammar
    ([arith_expr], [term], [factor], [power], [atom] with trailers); the
    first argument bounds the depth of the descent. *)
Fixpoint p_arith (n : nat) (ts : list token) {struct n} : parsed expr :=
  match n with
  | O => None
  | S n =>
      match p_term n ts with
      | Some (l, r) => p_arith_rest n l r
      | None => None
      end
  end
with p_arith_rest (n : nat) (l : expr) (ts : list token) {struct n}
  : parsed expr :=
  match n with
  | O => None
  | S n =>
      match ts with
      | TPlus :: r =>
          match p_term n r with
          | Some (e, r') => p_arith_rest n (EBinOp Add l e) r'
          | None => None
          end
      | TMinus :: r =>
          match p_term n r with
          | Some (e, r') => p_arith_rest n (EBinOp Sub l e) r'
          | None => None
          end
      | _ => Some (l, ts)
      end
  end
with p_term (n : nat) (ts : list token) {struct n} : parsed expr :=
  match n with
  | O => None
  | S n =>
      match p_factor n ts with
      | Some (l, r) => p_term_rest n l r
      | None => None
      end
  end
with p_term_rest (n : nat) (l : expr) (ts : list token) {struct n}
  : parsed expr :=
  match n with
  | O => None
  | S n =>
      match ts with
      | TStar :: r =>
          match p_factor n r with
          | Some (e, r') => p_term_rest n (EBinOp Mult l e) r'
          | None => None
          end
      | TSlash :: r =>
          match p_factor n r with
          | Some (e, r') => p_term_rest n (EBinOp Div l e) r'
          | None => None
          end
      | TDoubleSlash :: r =>
          match p_factor n r with
          | Some (e, r') => p_term_rest n (EBinOp FloorDiv l e) r'
          | None => None
          end
      | _ => Some (l, ts)
      end
  end
with p_factor (n : nat) (ts : list token) {struct n} : parsed expr :=
  match n with
  | O => None
  | S n =>
      match ts with
      | TPlus :: r =>
          match p_factor n r with
          | Some (e, r') => Some (EUnaryOp UAdd e, r')
          | None => None
          end
      | TMinus :: r =>
          match p_factor n r with
          | Some (e, r') => Some (EUnaryOp USub e, r')
          | None => None
          end
      | _ =>
          match p_atom n ts with
          | Some (a, r) =>
              match p_trailers n a r with
              | Some (b, TDoubleStar :: r') =>
                  match p_factor n r' with
                  | Some (e, r'') => Some (EBinOp Pow b e, r'')
                  | None => None
                  end
              | other => other
              end
          | None => None
          end
      end
  end
with p_trailers (n : nat) (a : expr) (ts : list token) {struct n}
  : parsed expr :=
  match n with
  | O => None
  | S n =>
      match ts with
      | TLParen :: r =>
          match p_items n r with
          | Some (args, r') => p_trailers n (ECall a args) r'
          | None => None
          end
      | TDot :: TName x :: r => p_trailers n (EAttribute a x) r
      | TDot :: _ => None
      | _ => Some (a, ts)
      end
  end
with p_items (n : nat) (ts : list token) {struct n}
  : parsed (list expr) :=
  (* expressions separated by commas, up to the closing parenthesis; a
     trailing comma is allowed *)
  match n with
  | O => None
  | S n =>
      match ts with
      | TRParen :: r => Some ([], r)
      | _ =>
          match p_arith n ts with
          | Some (e, TComma :: r) =>
              match p_items n r with
              | Some (es, r') => Some (e :: es, r')
              | None => None
              end
          | Some (e, TRParen :: r) => Some ([e], r)
          | _ => None
          end
      end
  end
with p_atom (n : nat) (ts : list token) {struct n} : parsed expr :=
  match n with
  | O => None
  | S n =>
      match ts with
      | TInt z :: r => Some (EInt z, r)
      | TFloat q :: r => Some (EFloat q, r)
      | TName x :: r => Some (EName x, r)
      | TEllipsis :: r => Some (EEllipsis, r)
      | TLParen :: TRParen :: r => Some (ETuple [], r)
      | TLParen :: r =>
          match p_arith n r with
          | Some (e, TRParen :: r') => Some (e, r')
          | Some (e, TComma :: r') =>
              match p_items n r' with
              | Some (es, r'') => Some (ETuple (e :: es), r'')
              | None => None
              end
          | _ => None
          end
      | _ => None
      end
  end.

Definition fuel_for (ts : list token) : nat := 8 * List.length ts + 8.

(** What a parser leaves over is part of what it was given. *)
Definition leaves_part {A : Type} (f : list token -> parsed A) : Prop :=
  forall ts a r, f ts = Some (a, r) -> incl r ts.

(** The parameter list of a lambda, up to the colon. *)
Fixpoint p_params (ts : list token) : parsed (list string) :=
  match ts with
  | TColon :: r => Some ([], r)
  | TName x :: TColon :: r => Some ([x], r)
  | TName x :: TComma :: r =>
      match p_params r with
      | Some (xs, r') => Some (x :: xs, r')
      | None => None
      end
  | _ => None
  end.

(** The items that follow the lambda in a tuple display, up to the end
    of the text; a trailing comma is allowed. *)
Fixpoint p_rest (n : nat) (ts : list token) : option (list expr) :=
  match n with
  | O => None
  | S n =>
      match ts with
      | [] => Some []
      | _ =>
          match p_arith (fuel_for ts) ts with
          | Some (e, []) => Some [e]
          | Some (e, TComma :: r) =>
              match p_rest n r with
              | Some es => Some (e :: es)
              | None => None
              end
          | _ => None
          end
      end
  end.

(** A text that starts with a lambda, as [eval] parses it. *)
Definition parse_tokens (ts : list token) : option source :=
  match ts with
  | TLambda :: r =>
      match p_params r with
      | Some (ps, r1) =>
          match p_arith (fuel_for r1) r1 with
          | Some (body, []) => Some (SLambda ps body)
          | Some (body, TComma :: r2) =>
              match p_rest (S (List.length r2)) r2 with
              | Some es => Some (STuple ps body es)
              | None => None
              end
          | _ => None
          end
      | None => None
      end
  | _ => None
  end.

Definition parse (text : string) : option source :=
  match tokenize text with
  | Some ts => parse_tokens ts
  | None => None
  end.

(** *** [float(text)] *)

Definition lower (c : ascii) : ascii :=
  let n := nat_of_ascii c in
  if (65 <=? n)%nat && (n <=? 90)%nat then ascii_of_nat (n + 32) else c.

Fixpoint lstrip (cs : list ascii) : list ascii :=
  match cs with
  | c :: r => if is_space c then lstrip r else cs
  | [] => []
  end.

Definition strip (cs : list ascii) : list ascii :=
  rev (lstrip (rev (lstrip cs))).

(** An unsigned decimal literal: digits with an optional fraction and an
    optional exponent. *)
Definition unsigned_float (cs : list ascii) : option Q :=
  match cs with
  | [] => None
  | _ =>
      match lex PNone cs with
      | Some [TInt z] => Some (inject_Z z)
      | Some [TFloat q] => Some q
      | Some _ => None
      | None =>
          (* an integer with leading zeros is a float for float() *)
          if forallb is_digit cs then Some (inject_Z (digits_val cs))
          else None
      end
  end.

Definition unsigned_num (cs : list ascii) : option num :=
  let w := string_of_list_ascii (map lower cs) in
  if String.eqb w "inf" || String.eqb w "infinity" then Some PInf
  else if String.eqb w "nan" then Some NaN
  else if existsb is_space cs then None
  else option_map Fin (unsigned_float cs).

(** [float(text)] for decimal text, [inf], [infinity] and [nan] in any
    case, with an optional sign and surrounding blanks; [None] is
    ValueError. *)
Definition float_of_string (text : string) : option num :=
  match strip (list_ascii_of_string text) with
  | c :: r =>
      if Ascii.eqb c "-"%char then option_map PyFloat.neg (unsigned_num r)
      else if Ascii.eqb c "+"%char then unsigned_num r
      else unsigned_num (c :: r)
  | [] => None
  end.

End PyText.

(* ================================================================== *)
(** ** An executable instance of the libraries

    The interpreter's arithmetic on the floats of this model, [float()]
    with the rounding of decimal text to binary64, the four functions at
    the rational arguments where their value is rational, an explicit Euler
    integrator in the place of the Runge-Kutta solver, and decimal
    printing. *)

Module Exact.

Definition builtin_functions : list string :=
  [ "abs"; "aiter"; "all"; "anext"; "any"; "ascii"; "bin"; "bool";
    "breakpoint"; "bytearray"; "bytes"; "callable"; "chr"; "classmethod";
    "compile"; "complex"; "delattr"; "dict"; "dir"; "divmod"; "enumerate";
    "eval"; "exec"; "filter"; "float"; "format"; "frozenset"; "getattr";
    "globals"; "hasattr"; "hash"; "help"; "hex"; "id"; "input"; "int";
    "isinstance"; "issubclass"; "iter"; "len"; "list"; "locals"; "map";
    "max"; "memoryview"; "min"; "next"; "object"; "oct"; "open"; "ord";
    "pow"; "print"; "property"; "range"; "repr"; "reversed"; "round";
    "set"; "setattr"; "slice"; "sorted"; "staticmethod"; "str"; "sum";
    "super"; "tuple"; "type"; "vars"; "zip"; "__import__" ].

Definition builtins (id : string) : option value :=
  if PyText.mem id builtin_functions then Some (VBuiltin id) else None.

Definition type_error (msg : string) : exn := mkExn TypeError msg.

Definition zero_division (msg : string) : exn :=
  mkExn ZeroDivisionError msg.

Definition is_zero (x : num) : bool := PyFloat.eqb x (Fin 0).

Definition num_floor (x : num) : num :=
  match x with
  | Fin q => Fin (inject_Z (Qfloor q))
  | other => other
  end.

Definition num_abs (x : num) : num :=
  match x with
  | Fin q => Fin (Qabs q)
  | NInf => PInf
  | other => other
  end.

Definition to_num (v : value) : option num :=
  match v with
  | VInt z => Some (PyFloat.round64 (inject_Z z))
  | VFloat x => Some x
  | _ => None
  end.

Definition binary_op (op : binop) (a b : value) : result value :=
  match a, b with
  | VInt x, VInt y =>
      match op with
      | Add => Ok (VInt (x + y))
      | Sub => Ok (VInt (x - y))
      | Mult => Ok (VInt (x * y))
      | Div =>
          if (y =? 0)%Z then Raise (zero_division "division by zero")
          else Ok (VFloat (PyFloat.div (PyFloat.of_Z x) (PyFloat.of_Z y)))
      | FloorDiv =>
          if (y =? 0)%Z
          then Raise (zero_division "integer division or modulo by zero")
          else Ok (VInt (x / y))
      | Pow =>
          if (0 <=? y)%Z then Ok (VInt (x ^ y))
          else if (x =? 0)%Z
          then Raise (zero_division
                        "0.0 cannot be raised to a negative power")
          else Ok (VFloat (PyFloat.round64 (Qpower (inject_Z x) y)))
      end
  | _, _ =>
    match to_num a, to_num b with
    | Some x, Some y =>
      match op with
      | Add => Ok (VFloat (PyFloat.add x y))
      | Sub => Ok (VFloat (PyFloat.sub x y))
      | Mult => Ok (VFloat (PyFloat.mul x y))
      | Div =>
          if is_zero y then Raise (zero_division "float division by zero")
          else Ok (VFloat (PyFloat.div x y))
      | FloorDiv =>
          if is_zero y then Raise (zero_division "float floor division by zero")
          else Ok (VFloat (num_floor (PyFloat.div x y)))
      | Pow =>
          match x, b with
          | Fin q, VInt e =>
              if Qeq_bool q 0 && (e <? 0)%Z
              then Raise (zero_division
                            "0.0 cannot be raised to a negative power")
              else Ok (VFloat (PyFloat.round64 (Qpower q e)))
          | _, _ =>
              Raise (mkExn OtherError "power is not an exact rational")
          end
      end
    | _, _ => Raise (type_error "unsupported operand type(s)")
    end
  end.

Definition unary_op (op : unop) (a : value) : result value :=
  match a, op with
  | VInt x, UAdd => Ok (VInt x)
  | VInt x, USub => Ok (VInt (- x))
  | VFloat x, UAdd => Ok (VFloat x)
  | VFloat x, USub => Ok (VFloat (PyFloat.neg x))
  | _, _ => Raise (type_error "bad operand type for unary operator")
  end.

(** sin, cos, exp and log at the only rational arguments where their
    value is rational. *)
Definition apply_ufunc (f : ufunc) (x : num) : result value :=
  match f, x with
  | Sin, Fin q =>
      if Qeq_bool q 0 then Ok (VFloat (Fin 0))
      else Raise (mkExn OtherError "sin is not an exact rational")
  | Cos, Fin q =>
      if Qeq_bool q 0 then Ok (VFloat (Fin 1))
      else Raise (mkExn OtherError "cos is not an exact rational")
  | Exp, Fin q =>
      if Qeq_bool q 0 then Ok (VFloat (Fin 1))
      else Raise (mkExn OtherError "exp is not an exact rational")
  | Log, Fin q =>
      if Qeq_bool q 1 then Ok (VFloat (Fin 0))
      else if Qeq_bool q 0 then Ok (VFloat NInf)
      else if Qle_bool q 0 then Ok (VFloat NaN)
      else Raise (mkExn OtherError "log is not an exact rational")
  | Exp, PInf => Ok (VFloat PInf)
  | Exp, NInf => Ok (VFloat (Fin 0))
  | Log, PInf => Ok (VFloat PInf)
  | _, _ => Ok (VFloat NaN)
  end.

Definition call_object (f : value) (args : list value) : result value :=
  match f, args with
  | VUfunc u, [VInt z] => apply_ufunc u (PyFloat.of_Z z)
  | VUfunc u, [VFloat x] => apply_ufunc u x
  | VUfunc _, _ => Raise (type_error "invalid arguments of a ufunc")
  | VBuiltin name, [VInt z] =>
      if String.eqb name "abs" then Ok (VInt (Z.abs z))
      else if String.eqb name "float" then Ok (VFloat (PyFloat.of_Z z))
      else Raise (mkExn OtherError "builtin outside this instance")
  | VBuiltin name, [VFloat x] =>
      if String.eqb name "abs" then Ok (VFloat (num_abs x))
      else if String.eqb name "float" then Ok (VFloat x)
      else Raise (mkExn OtherError "builtin outside this instance")
  | VBuiltin _, _ => Raise (mkExn OtherError "builtin outside this instance")
  | VClosure ps body, _ => Raise (type_error "<lambda>() argument mismatch")
  | _, _ => Raise (type_error "object is not callable")
  end.

Definition getattr (v : value) (attr : string) : result value :=
  match v with
  | VInt _ | VFloat _ =>
      if String.eqb attr "real" then Ok v
      else if String.eqb attr "imag" then
        Ok (match v with VInt _ => VInt 0 | _ => VFloat (Fin 0) end)
      else Raise (mkExn AttributeError
                    ("object has no attribute '" ++ attr ++ "'"))
  | _ => Raise (mkExn AttributeError
                  ("object has no attribute '" ++ attr ++ "'"))
  end.

Definition interp : Interp :=
  {| Py.py_parse := PyText.parse;
     Py.builtins := builtins;
     Py.binary_op := binary_op;
     Py.unary_op := unary_op;
     Py.call_object := call_object;
     Py.getattr := getattr |}.

(** [float(text)]: the decimal value, rounded to binary64. *)
Definition py_float (text : string) : option num :=
  option_map PyFloat.round_num (PyText.float_of_string text).

Definition as_float (v : value) : result num :=
  match v with
  | VInt z => Ok (PyFloat.round64 (inject_Z z))
  | VFloat x => Ok x
  | _ => Raise (type_error "float() argument must be a string or a real number")
  end.

Definition ivp_validate (t0 tf y0 : num) : result unit :=
  if PyFloat.is_finite y0 then Ok tt
  else Raise (mkExn ValueError
                "All components of the initial state `y0` must be finite.").

(** *** Explicit Euler with a fixed number of steps *)

Definition euler_steps : nat := 4.

(** The nodes (t_k, y_k) after [n] more steps of size [h] from (t, y),
    the slope at (t, y) being [f]. *)
Fixpoint euler_nodes (fn : num -> num -> result num) (h : num) (n : nat)
         (t y f : num) : result (list (num * num * num)) :=
  match n with
  | O => Ok [(t, y, f)]
  | S n =>
      let t' := PyFloat.add t h in
      let y' := PyFloat.add y (PyFloat.mul h f) in
      bind (fn t' y') (fun f' =>
      bind (euler_nodes fn h n t' y' f') (fun l =>
      Ok ((t, y, f) :: l)))
  end.

(** The piecewise linear interpolant through the nodes. *)
Fixpoint interpolate (nodes : list (num * num * num)) (t : num) : num :=
  match nodes with
  | [] => NaN
  | [(tk, yk, fk)] => PyFloat.add yk (PyFloat.mul (PyFloat.sub t tk) fk)
  | (tk, yk, fk) :: (((tk', _, _) :: _) as r) =>
      if PyFloat.ltb t tk'
      then PyFloat.add yk (PyFloat.mul (PyFloat.sub t tk) fk)
      else interpolate r t
  end.

Definition euler (fn : num -> num -> result num) (t0 tf y0 f0 : num)
  : result OdeResult :=
  let h := PyFloat.div (PyFloat.sub tf t0) (PyFloat.of_nat euler_steps) in
  bind (euler_nodes fn h euler_steps t0 y0 f0) (fun nodes =>
  let yl := match last nodes (t0, y0, f0) with (_, y, _) => y end in
  Ok {| success := PyFloat.is_finite yl;
        sol := interpolate nodes;
        y_final := yl |}).

(** *** Decimal printing *)

Definition string_of_Z (z : Z) : string :=
  DecimalString.NilZero.string_of_int (Z.to_int z).

Fixpoint pad_zeros (n : nat) (s : string) : string :=
  match n with
  | O => s
  | S n => if (String.length s <? S n)%nat
           then pad_zeros n ("0" ++ s) else s
  end.

(** [q] with [d] digits after the point. *)
Definition fixed (d : nat) (q : Q) : string :=
  let n := PyFloat.nearest_even (q * inject_Z (10 ^ Z.of_nat d)) in
  let a := Z.abs n in
  let ip := (a / 10 ^ Z.of_nat d)%Z in
  let fp := (a mod 10 ^ Z.of_nat d)%Z in
  (if (n <? 0)%Z then "-" else EmptyString)
    ++ string_of_Z ip ++ "." ++ pad_zeros d (string_of_Z fp).

Definition print_num (d : nat) (x : num) : string :=
  match x with
  | Fin q => fixed d q
  | PInf => "inf"
  | NInf => "-inf"
  | NaN => "nan"
  end.

Definition str_float_list (l : list num) : string :=
  "[" ++ String.concat ", " (map (print_num 6) l) ++ "]".

Definition round3 (x : num) : num :=
  match x with
  | Fin q => PyFloat.round64 (Qmake (PyFloat.nearest_even (q * 1000)) 1000)
  | other => other
  end.

Definition env : Env :=
  {| Libs.interp := interp;
     Libs.py_float := py_float;
     Libs.as_float := as_float;
     Libs.ivp_validate := ivp_validate;
     Libs.rk45 := euler;
     Libs.str_float := print_num 1;
     Libs.format_6f := print_num 6;
     Libs.str_float_list := str_float_list;
     Libs.round3 := round3;
     Libs.named_temporary_file := Ok "/tmp/tmpgrafica.png";
     Libs.savefig := fun _ _ _ _ => Ok tt;
     Libs.plot_figure := fun _ _ _ => Ok tt;
     Libs.gettempdir := "/tmp";
     Libs.makedirs := fun _ => Ok tt;
     Libs.write_text := fun _ _ => Written;
     Libs.plt_close := Ok tt;
     Libs.webbrowser_open := fun _ => Ok tt |}.

(** The state after typing an equation and the three values. *)
Definition typed (ecuacion t0 y0 tf : string) : App :=
  set_tf_value (Some tf)
    (set_y0_value (Some y0)
      (set_t0_value (Some t0)
        (set_ecuacion_value (Some ecuacion) initial))).

(** A value of [datetime.now().strftime("%Y%m%d_%H%M%S")]. *)
Definition stamp : string := "20260101_120000".

(** The state after solving y' = y from (0, 1) to t = 1. *)
Definition after_solve : App :=
  snd (resolver_ecuacion env (typed "y" "0" "1" "1")).

End Exact.


(* ================================================================== *)
(** * Properties *)

(** ** How [resolver_ecuacion] reaches each of its return points *)

Section Resolver.
Context (env : Env).

Lemma resolver_missing (st : App) :
  fields_present st = false ->
  resolver_ecuacion env st
  = (MissingField, show_error "Todos los campos son obligatorios" st).
Proof.
  unfold fields_present, resolver_ecuacion. intros H.
  apply negb_false_iff in H. now rewrite H.
Qed.

Lemma resolver_not_compiled (st : App) (e : exn) :
  fields_present st = true ->
  compiled env st = Raise e ->
  resolver_ecuacion env st
  = if is_syntax_error e
    then (SyntaxErr, show_error "La ecuación tiene errores de sintaxis" st)
    else if is_name_error e
    then (UnknownSymbol,
          show_error ("Variable no definida: " ++ exn_str e) st)
    else (Caught Compiling e, show_error (exn_str e) st).
Proof.
  unfold fields_present, compiled, resolver_ecuacion. intros H C.
  apply negb_true_iff in H. rewrite H, C. reflexivity.
Qed.

Lemma resolver_not_a_number (st : App) (f : value) :
  fields_present st = true ->
  compiled env st = Ok f ->
  numbers env st = None ->
  resolver_ecuacion env st
  = (NotANumber, show_error "Los valores deben ser números" st).
Proof.
  unfold fields_present, compiled, numbers, resolver_ecuacion.
  intros H C N. apply negb_true_iff in H. rewrite H, C.
  destruct (py_float env (or_empty (t0_value st))); [|reflexivity].
  destruct (py_float env (or_empty (y0_value st))); [|reflexivity].
  destruct (py_float env (or_empty (tf_value st))); [discriminate|reflexivity].
Qed.

Lemma resolver_on_request (st : App) (f : value) (t0 y0 tf : num) :
  fields_present st = true ->
  compiled env st = Ok f ->
  numbers env st = Some (t0, y0, tf) ->
  resolver_ecuacion env st
  = if PyFloat.leb tf t0
    then (InvalidRange,
          show_error
            "El tiempo final (tf) debe ser mayor que el tiempo inicial (t0)"
            st)
    else match solve_ivp env f t0 tf y0 with
         | Raise e =>
             (Caught Solving e,
              show_error (exn_str e) (entering f t0 y0 tf st))
         | Ok s =>
             if negb (success s)
             then (SolverFailed,
                   show_error "No se pudo resolver la ecuación diferencial"
                     (entering f t0 y0 tf st))
             else store_and_plot env s t0 tf (entering f t0 y0 tf st)
         end.
Proof.
  unfold fields_present, compiled, numbers, resolver_ecuacion.
  intros H C N. apply negb_true_iff in H. rewrite H, C.
  destruct (py_float env (or_empty (t0_value st))); [|discriminate].
  destruct (py_float env (or_empty (y0_value st))); [|discriminate].
  destruct (py_float env (or_empty (tf_value st))); [|discriminate].
  injection N as -> -> ->. reflexivity.
Qed.

End Resolver.

(** ** The stored solution *)

Section Session.
Context (env : Env).

Lemma exportCurrent_ext (ts : string) (a b : App) :
  current_solution a = current_solution b ->
  solution_params a = solution_params b ->
  exportCurrent env ts a = exportCurrent env ts b.
Proof.
  intros Hs Hp.
  unfold exportCurrent, mostrar_grafica_externa.
  rewrite <- Hs. destruct (current_solution a) as [s|] eqn:Ea; simpl;
    [|reflexivity].
  unfold crear_grafica_externa; simpl.
  rewrite <- Hs, Ea, <- Hp.
  destruct (makedirs env _); simpl; [|reflexivity].
  destruct (plot_figure env _ _ _); simpl; [|reflexivity].
  destruct (write_text env _ _); try reflexivity.
  destruct (plt_close env); reflexivity.
Qed.

Lemma exportCurrent_empty (ts : string) (st : App) :
  current_solution st = None -> exportCurrent env ts st = NoSolution.
Proof.
  intros H. unfold exportCurrent, mostrar_grafica_externa. now rewrite H.
Qed.

(** A solve that fails leaves [current_solution] and [solution_params] as
    they were. *)
Lemma failed_solve_state (st : App) :
  solve_failed (fst (resolver_ecuacion env st)) = true ->
  current_solution (snd (resolver_ecuacion env st)) = current_solution st
  /\ solution_params (snd (resolver_ecuacion env st)) = solution_params st.
Proof.
  unfold resolver_ecuacion.
  destruct (falsy _ || falsy _ || falsy _ || falsy _); [simpl; auto|].
  destruct (py_eval _ _) as [f|e].
  2:{ destruct (is_syntax_error e), (is_name_error e); simpl; auto. }
  destruct (py_float env (or_empty (t0_value st))); [|simpl; auto].
  destruct (py_float env (or_empty (y0_value st))); [|simpl; auto].
  destruct (py_float env (or_empty (tf_value st))); [|simpl; auto].
  destruct (PyFloat.leb _ _); [simpl; auto|].
  destruct (solve_ivp _ _ _ _ _) as [s|e]; [|simpl; auto].
  destruct (negb (success s)); [simpl; auto|].
  unfold store_and_plot.
  destruct (named_temporary_file env);
    [destruct (savefig env _ _ _ _)|]; simpl; discriminate.
Qed.

(** A solve that gets past the integration stores its result: whether the
    plot that follows succeeds or raises, the equation compiled to a
    callable, the three fields were read as numbers t0, y0 and tf that
    pass the range test, [solve_ivp] on that callable and those numbers
    returned a successful result, and it is this result that
    [current_solution] holds, with t0, tf and the equation text of this
    solve in [solution_params]; the graph button is enabled. *)
Theorem successful_solve_is_stored (st : App) :
  match fst (resolver_ecuacion env st) with
  | Solved | Caught Plotting _ =>
      exists f s t0 y0 tf,
        fields_present st = true
        /\ compiled env st = Ok f
        /\ numbers env st = Some (t0, y0, tf)
        /\ PyFloat.leb tf t0 = false
        /\ solve_ivp env f t0 tf y0 = Ok s
        /\ success s = true
        /\ current_solution (snd (resolver_ecuacion env st)) = Some s
        /\ solution_params (snd (resolver_ecuacion env st))
           = {| p_t0 := t0; p_tf := tf;
                p_equation := or_empty (ecuacion_value st) |}
        /\ boton_grafica_disabled (snd (resolver_ecuacion env st)) = false
  | _ => True
  end.
Proof.
  unfold resolver_ecuacion, fields_present, compiled, numbers.
  destruct (falsy _ || falsy _ || falsy _ || falsy _); [exact I|].
  destruct (py_eval _ _) as [f|e].
  2:{ destruct (is_syntax_error e), (is_name_error e); exact I. }
  destruct (py_float env (or_empty (t0_value st))) as [t0|]; [|exact I].
  destruct (py_float env (or_empty (y0_value st))) as [y0|]; [|exact I].
  destruct (py_float env (or_empty (tf_value st))) as [tf|]; [|exact I].
  destruct (PyFloat.leb tf t0) eqn:L; [exact I|].
  destruct (solve_ivp _ _ _ _ _) as [s|e] eqn:V; [|exact I].
  destruct (success s) eqn:S; [|exact I].
  unfold store_and_plot.
  destruct (named_temporary_file env);
    [destruct (savefig env _ _ _ _)|]; cbn [negb fst snd];
    exists f, s, t0, y0, tf; repeat split; assumption.
Qed.

(** C2.  Whenever [resolver_ecuacion] ends without having solved the
    equation (a missing field, an equation that does not compile, a value
    that is not a number, a bad range, an exception inside [solve_ivp] or
    an unsuccessful integration), the stored solution and its parameters
    are the ones from before the call, and the export that follows gives
    what it gave before: the artifact of the stored solution, or
    [NoSolution] when nothing is stored. *)
Theorem failed_solve_keeps_solution (ts : string) (st : App) :
  solve_failed (fst (resolver_ecuacion env st)) = true ->
  current_solution (snd (resolver_ecuacion env st)) = current_solution st
  /\ solution_params (snd (resolver_ecuacion env st)) = solution_params st
  /\ exportCurrent env ts (snd (resolver_ecuacion env st))
     = exportCurrent env ts st
  /\ (current_solution st = None ->
      exportCurrent env ts (snd (resolver_ecuacion env st)) = NoSolution).
Proof.
  intros H. destruct (failed_solve_state st H) as [Hs Hp].
  repeat split; auto.
  - now apply exportCurrent_ext.
  - intros E. apply exportCurrent_empty. now rewrite Hs.
Qed.

Lemma perform_keeps_empty (a : action) (st : App) :
  match a with
  | Resolver => solve_failed (fst (resolver_ecuacion env st))
  | _ => true
  end = true ->
  current_solution st = None ->
  current_solution (perform env a st) = None.
Proof.
  intros F E. destruct a; unfold perform.
  - destruct (existsb _ _); simpl; auto.
  - exact E.
  - exact E.
  - exact E.
  - destruct (failed_solve_state st F) as [Hs _]. now rewrite Hs.
  - destruct (boton_grafica_disabled st); auto.
    unfold mostrar_grafica_externa. rewrite E. simpl. exact E.
  - reflexivity.
Qed.

Lemma run_keeps_empty (l : list action) :
  forall st,
    all_solves_fail env l st = true ->
    current_solution st = None ->
    current_solution (run env l st) = None.
Proof.
  induction l as [|a r IH]; intros st F E; simpl in *; auto.
  apply andb_true_iff in F. destruct F as [Fa Fr].
  apply IH; auto. now apply perform_keeps_empty.
Qed.

(** C9.  [limpiar_ecuacion] empties the stored solution whatever the state,
    and from then on, as long as no solve succeeds, the export is refused:
    the click handler reports that nothing has been solved, starts no
    worker, and [crear_grafica_externa] returns [None]. *)
Theorem clear_then_export_no_solution
        (ts : string) (st : App) (l : list action) :
  all_solves_fail env l (limpiar_ecuacion st) = true ->
  current_solution (limpiar_ecuacion st) = None
  /\ exportCurrent env ts (limpiar_ecuacion st) = NoSolution
  /\ exportCurrent env ts (run env l (limpiar_ecuacion st)) = NoSolution
  /\ snd (mostrar_grafica_externa (run env l (limpiar_ecuacion st))) = false
  /\ fst (crear_grafica_externa env ts (run env l (limpiar_ecuacion st)))
     = None.
Proof.
  intros F.
  assert (E : current_solution (run env l (limpiar_ecuacion st)) = None)
    by (apply run_keeps_empty; auto).
  repeat split.
  - now apply exportCurrent_empty.
  - unfold mostrar_grafica_externa. now rewrite E.
  - unfold crear_grafica_externa. now rewrite E.
Qed.

End Session.

(** ** Validation of the inputs *)

Section Validation.
Context (env : Env).

Lemma solving_records_call (st : App) (f : value) (t0 y0 tf : num) :
  fields_present st = true ->
  compiled env st = Ok f ->
  numbers env st = Some (t0, y0, tf) ->
  PyFloat.leb tf t0 = false ->
  ivp_calls (snd (resolver_ecuacion env st))
  = (f, t0, tf, y0) :: ivp_calls st.
Proof.
  intros P C N L. rewrite (resolver_on_request env st f t0 y0 tf P C N), L.
  destruct (solve_ivp _ _ _ _ _) as [s|e]; [|reflexivity].
  destruct (negb (success s)); [reflexivity|].
  unfold store_and_plot. destruct (named_temporary_file env);
    [destruct (savefig env _ _ _ _)|]; reflexivity.
Qed.

(** C3.  A request whose final time is not greater than its initial time
    ([tf <= t0]) is answered with the range error: [solve_ivp] is not
    called, and the stored solution and its parameters stay as they
    were (only the result text changes). *)
Theorem invalid_range_rejected_before_integration
        (st : App) (f : value) (t0 y0 tf : num) :
  fields_present st = true ->
  compiled env st = Ok f ->
  numbers env st = Some (t0, y0, tf) ->
  PyFloat.leb tf t0 = true ->
  resolver_ecuacion env st
  = (InvalidRange,
     show_error
       "El tiempo final (tf) debe ser mayor que el tiempo inicial (t0)" st)
  /\ ivp_calls (snd (resolver_ecuacion env st)) = ivp_calls st
  /\ current_solution (snd (resolver_ecuacion env st)) = current_solution st
  /\ solution_params (snd (resolver_ecuacion env st)) = solution_params st.
Proof.
  intros P C N L. rewrite (resolver_on_request env st f t0 y0 tf P C N), L.
  repeat split.
Qed.

(** C5, as the code has it.  There is no test for finite values.  A
    request in which t0, y0 or tf is an infinity or NaN goes the way of
    every other request: when [tf <= t0] holds it gets the range error
    before integration, and otherwise [solve_ivp] is called with the
    values as they are. *)
Theorem nonfinite_request_reaches_solver
        (st : App) (f : value) (t0 y0 tf : num) :
  fields_present st = true ->
  compiled env st = Ok f ->
  numbers env st = Some (t0, y0, tf) ->
  PyFloat.is_finite t0 && PyFloat.is_finite y0 && PyFloat.is_finite tf
  = false ->
  if PyFloat.leb tf t0
  then fst (resolver_ecuacion env st) = InvalidRange
       /\ ivp_calls (snd (resolver_ecuacion env st)) = ivp_calls st
  else ivp_calls (snd (resolver_ecuacion env st))
       = (f, t0, tf, y0) :: ivp_calls st.
Proof.
  intros P C N _. destruct (PyFloat.leb tf t0) eqn:L.
  - rewrite (resolver_on_request env st f t0 y0 tf P C N), L. split; reflexivity.
  - now apply solving_records_call.
Qed.

(** C6, as the code has it.  The checks come in this order: a missing
    field; then the equation, whose compile error is reported whatever the
    three values are; then the three values, where one that is not a number
    gives NotANumber; and only then the range test and the solver. *)
Theorem validation_order (st : App) :
  if fields_present st then
    match compiled env st with
    | Raise e =>
        fst (resolver_ecuacion env st)
        = if is_syntax_error e then SyntaxErr
          else if is_name_error e then UnknownSymbol
          else Caught Compiling e
    | Ok f =>
        match numbers env st with
        | None => fst (resolver_ecuacion env st) = NotANumber
        | Some (t0, y0, tf) =>
            if PyFloat.leb tf t0
            then fst (resolver_ecuacion env st) = InvalidRange
            else ivp_calls (snd (resolver_ecuacion env st))
                 = (f, t0, tf, y0) :: ivp_calls st
        end
    end
  else fst (resolver_ecuacion env st) = MissingField.
Proof.
  destruct (fields_present st) eqn:P.
  2:{ now rewrite resolver_missing. }
  destruct (compiled env st) as [f|e] eqn:C.
  2:{ rewrite (resolver_not_compiled env st e P C).
      destruct (is_syntax_error e), (is_name_error e); reflexivity. }
  destruct (numbers env st) as [[[t0 y0] tf]|] eqn:N.
  2:{ now rewrite (resolver_not_a_number env st f P C N). }
  destruct (PyFloat.leb tf t0) eqn:L.
  - now rewrite (resolver_on_request env st f t0 y0 tf P C N), L.
  - now apply solving_records_call.
Qed.

End Validation.

(** ** Names in the equation *)

Section Names.
Context (env : Env).

Lemma compiled_lambda (st : App) (ps : list string) (body : expr) :
  py_parse (interp env)
    ("lambda t, y: " ++ replace_caret (or_empty (ecuacion_value st)))
  = Some (SLambda ps body) ->
  compiled env st = Ok (VClosure ps body).
Proof.
  intros H. unfold compiled, py_eval. now rewrite H.
Qed.

Lemma store_and_plot_exit (s : OdeResult) (t0 tf : num) (st : App) :
  fst (store_and_plot env s t0 tf st) = Solved
  \/ exists e, fst (store_and_plot env s t0 tf st) = Caught Plotting e.
Proof.
  unfold store_and_plot. destruct (named_temporary_file env);
    [destruct (savefig env _ _ _ _)|]; simpl; eauto.
Qed.

(** Once the equation is compiled, no compile-time exit is taken. *)
Lemma compiled_ok_exit (st : App) (f : value) :
  fields_present st = true ->
  compiled env st = Ok f ->
  fst (resolver_ecuacion env st) <> UnknownSymbol
  /\ fst (resolver_ecuacion env st) <> SyntaxErr
  /\ (forall e, fst (resolver_ecuacion env st) <> Caught Compiling e).
Proof.
  intros P C.
  destruct (numbers env st) as [[[t0 y0] tf]|] eqn:N.
  - rewrite (resolver_on_request env st f t0 y0 tf P C N).
    destruct (PyFloat.leb tf t0); [simpl; repeat split; congruence|].
    destruct (solve_ivp _ _ _ _ _) as [s|e];
      [|simpl; repeat split; congruence].
    destruct (negb (success s)); [simpl; repeat split; congruence|].
    destruct (store_and_plot_exit s t0 tf (entering f t0 y0 tf st))
      as [E|[e E]]; rewrite E; repeat split; congruence.
  - rewrite (resolver_not_a_number env st f P C N).
    simpl; repeat split; congruence.
Qed.

(** When the text handed to [eval] is a single lambda, building the
    function succeeds whatever names its body mentions, and an exception
    of the first evaluation inside [solve_ivp] ends in the general handler
    of line 364. *)
Lemma single_lambda_exits
        (st : App) (ps : list string) (body : expr) :
  fields_present st = true ->
  py_parse (interp env)
    ("lambda t, y: " ++ replace_caret (or_empty (ecuacion_value st)))
  = Some (SLambda ps body) ->
  compiled env st = Ok (VClosure ps body)
  /\ fst (resolver_ecuacion env st) <> UnknownSymbol
  /\ fst (resolver_ecuacion env st) <> SyntaxErr
  /\ (forall e, fst (resolver_ecuacion env st) <> Caught Compiling e)
  /\ (forall t0 y0 tf e,
        numbers env st = Some (t0, y0, tf) ->
        PyFloat.leb tf t0 = false ->
        ivp_validate env t0 tf y0 = Ok tt ->
        rhs env (VClosure ps body) t0 y0 = Raise e ->
        resolver_ecuacion env st
        = (Caught Solving e,
           show_error (exn_str e)
             (entering (VClosure ps body) t0 y0 tf st))).
Proof.
  intros P H. pose proof (compiled_lambda st ps body H) as C.
  destruct (compiled_ok_exit st _ P C) as (U & S & K).
  repeat split; try assumption.
  intros t0 y0 tf e N L V R.
  rewrite (resolver_on_request env st _ t0 y0 tf P C N), L.
  unfold solve_ivp. rewrite V. simpl. rewrite R. reflexivity.
Qed.

End Names.

(** ** The sampling grid *)

Section Grid.

Lemma set_last_length (l : list num) (v : num) :
  List.length (Numpy.set_last l v) = List.length l.
Proof.
  induction l as [|x [|y r] IH]; simpl in *; auto.
Qed.

Lemma set_last_nth (l : list num) (v d : num) :
  forall i, (i < List.length l)%nat ->
    nth i (Numpy.set_last l v) d
    = if (i =? List.length l - 1)%nat then v else nth i l d.
Proof.
  induction l as [|x [|y r] IH]; intros i Hi.
  - simpl in Hi. lia.
  - simpl in Hi. assert (i = 0%nat) by lia. subst. reflexivity.
  - destruct i as [|i].
    + reflexivity.
    + change (nth (S i) (Numpy.set_last (x :: y :: r) v) d)
        with (nth i (Numpy.set_last (y :: r) v) d).
      rewrite IH by (simpl in *; lia).
      change (List.length (x :: y :: r)) with (S (List.length (y :: r))).
      replace (S i =? S (List.length (y :: r)) - 1)%nat
        with (i =? List.length (y :: r) - 1)%nat.
      * reflexivity.
      * destruct (Nat.eqb_spec i (List.length (y :: r) - 1)),
          (Nat.eqb_spec (S i) (S (List.length (y :: r)) - 1));
          try reflexivity; simpl in *; lia.
Qed.

(** Rounding depends on the value of a fraction only. *)
Lemma round64_compat (q q' : Q) :
  q == q' -> PyFloat.round64 q = PyFloat.round64 q'.
Proof.
  intros H. unfold PyFloat.round64. now rewrite (Qred_complete q q' H).
Qed.

Lemma round64_zero (q : Q) : q == 0 -> PyFloat.round64 q = Fin 0.
Proof.
  intros H. rewrite (round64_compat q 0 H). reflexivity.
Qed.

Lemma linspace_length (start stop : num) (n : nat) :
  List.length (Numpy.linspace start stop n) = n.
Proof.
  unfold Numpy.linspace.
  destruct (1 <? n)%nat; [rewrite set_last_length|];
    rewrite length_map;
    (destruct (0 <? n - 1)%nat; [destruct (PyFloat.eqb _ _)|]);
    rewrite length_map; unfold Numpy.arange;
    now rewrite length_map, length_seq.
Qed.

Lemma nth_map_seq (h : nat -> num) (n i : nat) :
  (i < n)%nat -> nth i (map h (seq 0 n)) NaN = h i.
Proof.
  intros Hi.
  rewrite nth_indep with (d' := h 0%nat)
    by (rewrite length_map, length_seq; exact Hi).
  rewrite (map_nth h (seq 0 n) 0%nat i). now rewrite seq_nth.
Qed.

Lemma mul_zero_l (x : Q) :
  PyFloat.mul (Fin (inject_Z (Z.of_nat 0))) (Fin x) = Fin 0.
Proof.
  unfold PyFloat.mul. apply round64_zero.
  change (inject_Z (Z.of_nat 0)) with 0. ring.
Qed.

Lemma div_zero_l (k : Q) :
  ~ k == 0 -> PyFloat.div (Fin (inject_Z (Z.of_nat 0))) (Fin k) = Fin 0.
Proof.
  intros K. unfold PyFloat.div.
  destruct (Qeq_bool k 0) eqn:E; [apply Qeq_bool_eq in E; contradiction|].
  apply round64_zero. change (inject_Z (Z.of_nat 0)) with 0.
  unfold Qdiv. ring.
Qed.

Lemma add_zero_l (a : Q) :
  PyFloat.add (Fin 0) (Fin a) = PyFloat.round64 a.
Proof.
  unfold PyFloat.add. apply round64_compat. ring.
Qed.

(** A finite step comes from two finite endpoints. *)
Lemma finite_step (t0 tf : num) (k : Q) :
  PyFloat.is_finite (PyFloat.div (PyFloat.sub tf t0) (Fin k)) = true ->
  exists a b d,
    t0 = Fin a /\ tf = Fin b /\ PyFloat.sub tf t0 = Fin d.
Proof.
  intros F.
  destruct (PyFloat.sub tf t0) as [d| | |] eqn:D.
  - destruct t0 as [a| | |], tf as [b| | |];
      try (unfold PyFloat.sub, PyFloat.neg, PyFloat.add in D; discriminate).
    now exists a, b, d.
  - unfold PyFloat.div, PyFloat.inf_of_sign, PyFloat.sign in F.
    destruct (Qcompare k 0); discriminate.
  - unfold PyFloat.div, PyFloat.inf_of_sign, PyFloat.sign in F.
    destruct (Qcompare k 0); discriminate.
  - discriminate.
Qed.

(** The points of [linspace], one by one: the last one is [stop] itself;
    the others are computed from the index, each operation rounding. *)
Lemma linspace_nth (start stop : num) (n i : nat) :
  (2 <= n)%nat -> (i < n)%nat ->
  nth i (Numpy.linspace start stop n) NaN
  = if (i =? n - 1)%nat then stop
    else
      PyFloat.add
        (if PyFloat.eqb (PyFloat.div (PyFloat.sub stop start)
                                     (PyFloat.of_nat (n - 1))) (Fin 0)
         then PyFloat.mul
                (PyFloat.div (PyFloat.of_nat i) (PyFloat.of_nat (n - 1)))
                (PyFloat.sub stop start)
         else PyFloat.mul
                (PyFloat.of_nat i)
                (PyFloat.div (PyFloat.sub stop start)
                             (PyFloat.of_nat (n - 1))))
        start.
Proof.
  intros Hn Hi. unfold Numpy.linspace.
  assert (H0 : (0 <? n - 1)%nat = true) by (apply Nat.ltb_lt; lia).
  assert (H1 : (1 <? n)%nat = true) by (apply Nat.ltb_lt; lia).
  rewrite H0, H1. cbv zeta. unfold Numpy.arange.
  destruct (PyFloat.eqb _ _);
    rewrite !map_map;
    (rewrite set_last_nth by (rewrite length_map, length_seq; exact Hi));
    rewrite length_map, length_seq;
    (destruct (i =? n - 1)%nat; [reflexivity|]);
    now rewrite nth_map_seq by exact Hi.
Qed.

End Grid.

(** ** Sampling *)

Section Sampling.
Context (env : Env).

Lemma sample_count_ge_2 : (2 <= sample_count)%nat.
Proof. unfold sample_count. lia. Qed.


(** What one run of [crear_grafica_externa] does to the stored solution
    (nothing) and to the record of samples. *)
Lemma crear_grafica_externa_state (ts : string) (st : App) :
  current_solution (snd (crear_grafica_externa env ts st))
  = current_solution st
  /\ solution_params (snd (crear_grafica_externa env ts st))
     = solution_params st
  /\ samples (snd (crear_grafica_externa env ts st))
     = match current_solution st with
       | None => samples st
       | Some s =>
           match makedirs env (path_join (gettempdir env) "calcediff") with
           | Raise _ => samples st
           | Ok _ =>
               sample s (p_t0 (solution_params st))
                        (p_tf (solution_params st)) :: samples st
           end
       end.
Proof.
  unfold crear_grafica_externa.
  destruct (current_solution st) as [s|] eqn:E;
    [|cbn [fst snd]; rewrite E; auto].
  destruct (makedirs env _); [|cbn [fst snd]; rewrite E; auto].
  destruct (plot_figure env _ _ _);
    [destruct (write_text env _ _); [| |destruct (plt_close env)]|];
    cbn [fst snd current_solution solution_params samples set_samples
         set_files]; rewrite E; auto.
Qed.

(** C8.  Exporting twice in a row samples the same stored solution with
    the same 500-point grid and obtains the same two sequences, and the
    stored solution and its parameters are the same before, between and
    after the two runs. *)
Theorem sampling_is_repeatable (ts1 ts2 : string) (st : App) :
  current_solution (snd (crear_grafica_externa env ts1 st))
  = current_solution st
  /\ solution_params (snd (crear_grafica_externa env ts1 st))
     = solution_params st
  /\ current_solution
       (snd (crear_grafica_externa env ts2
               (snd (crear_grafica_externa env ts1 st))))
     = current_solution st
  /\ solution_params
       (snd (crear_grafica_externa env ts2
               (snd (crear_grafica_externa env ts1 st))))
     = solution_params st
  /\ (samples (snd (crear_grafica_externa env ts2
                      (snd (crear_grafica_externa env ts1 st))))
      = samples st
      \/ exists s,
           current_solution st = Some s
           /\ samples (snd (crear_grafica_externa env ts2
                              (snd (crear_grafica_externa env ts1 st))))
              = sample s (p_t0 (solution_params st))
                         (p_tf (solution_params st))
                :: sample s (p_t0 (solution_params st))
                            (p_tf (solution_params st))
                :: samples st).
Proof.
  destruct (crear_grafica_externa_state ts1 st) as (S1 & P1 & L1).
  destruct (crear_grafica_externa_state ts2
              (snd (crear_grafica_externa env ts1 st))) as (S2 & P2 & L2).
  rewrite S1 in S2. rewrite P1 in P2.
  repeat split; auto.
  rewrite L2, S1, P1, L1.
  destruct (current_solution st) as [s|]; [|now left].
  destruct (makedirs env _); [|now left].
  right. exists s. split; reflexivity.
Qed.

Lemma solved_samples (st : App) :
  fst (resolver_ecuacion env st) = Solved ->
  exists s t0 tf,
    current_solution (snd (resolver_ecuacion env st)) = Some s
    /\ p_t0 (solution_params (snd (resolver_ecuacion env st))) = t0
    /\ p_tf (solution_params (snd (resolver_ecuacion env st))) = tf
    /\ samples (snd (resolver_ecuacion env st))
       = sample s t0 tf :: samples st.
Proof.
  unfold resolver_ecuacion.
  destruct (falsy _ || falsy _ || falsy _ || falsy _); [discriminate|].
  destruct (py_eval _ _) as [f|e].
  2:{ destruct (is_syntax_error e), (is_name_error e); discriminate. }
  destruct (py_float env (or_empty (t0_value st))) as [t0|]; [|discriminate].
  destruct (py_float env (or_empty (y0_value st))) as [y0|]; [|discriminate].
  destruct (py_float env (or_empty (tf_value st))) as [tf|]; [|discriminate].
  destruct (PyFloat.leb tf t0); [discriminate|].
  destruct (solve_ivp _ _ _ _ _) as [s|e]; [|discriminate].
  destruct (negb (success s)); [discriminate|].
  unfold store_and_plot.
  destruct (named_temporary_file env);
    [destruct (savefig env _ _ _ _)|]; cbn [fst snd]; try discriminate.
  intros _. exists s, t0, tf. repeat split.
Qed.

(** The curve shown after a solve and the curve exported afterwards are
    the same: the export samples the stored solution on the grid of the
    stored interval and obtains the two sequences the inline plot was
    drawn from. *)
Theorem export_repeats_inline_sample (ts : string) (st : App) :
  fst (resolver_ecuacion env st) = Solved ->
  exists x,
    samples (snd (resolver_ecuacion env st)) = x :: samples st
    /\ (samples (snd (crear_grafica_externa env ts
                        (snd (resolver_ecuacion env st))))
        = x :: x :: samples st
        \/ (exists e, makedirs env (path_join (gettempdir env) "calcediff")
                      = Raise e)
           /\ samples (snd (crear_grafica_externa env ts
                              (snd (resolver_ecuacion env st))))
              = x :: samples st).
Proof.
  intros H. destruct (solved_samples st H) as (s & t0 & tf & C & A & B & L).
  exists (sample s t0 tf). split; [exact L|].
  destruct (crear_grafica_externa_state ts (snd (resolver_ecuacion env st)))
    as (_ & _ & X).
  rewrite X, C, A, B, L.
  destruct (makedirs env _) as [u|e]; [now left|].
  right. split; [now exists e|reflexivity].
Qed.

End Sampling.

(** ** The equation text in the exported document *)

Section ExportedDocument.
Context (env : Env).

Lemma list_ascii_of_string_app (a b : string) :
  list_ascii_of_string (a ++ b)
  = (list_ascii_of_string a ++ list_ascii_of_string b)%list.
Proof.
  induction a as [|c a IH]; simpl; [reflexivity|]. now rewrite IH.
Qed.

Lemma keypad_text_app (a b : string) :
  keypad_text (a ++ b) = keypad_text a && keypad_text b.
Proof.
  unfold keypad_text. now rewrite list_ascii_of_string_app, forallb_app.
Qed.

Lemma keypad_symbols_are_keypad_text :
  forallb keypad_text (concat botones) = true.
Proof. vm_compute. reflexivity. Qed.

Lemma keypad_text_symbol (b : string) :
  existsb (String.eqb b) (concat botones) = true -> keypad_text b = true.
Proof.
  intros H. apply existsb_exists in H. destruct H as (x & Hx & E).
  apply String.eqb_eq in E. subst x.
  pose proof keypad_symbols_are_keypad_text as K.
  rewrite forallb_forall in K. now apply K.
Qed.

Lemma keypad_alphabet_is_safe :
  forallb (fun c => negb (html_special c)) keypad_alphabet = true.
Proof. vm_compute. reflexivity. Qed.

Lemma keypad_text_is_safe (s : string) :
  keypad_text s = true -> html_text_safe s = true.
Proof.
  unfold keypad_text, html_text_safe. rewrite !forallb_forall.
  intros H c Hc. specialize (H c Hc).
  apply existsb_exists in H. destruct H as (x & Hx & E).
  apply Ascii.eqb_eq in E. subst x.
  pose proof keypad_alphabet_is_safe as K.
  rewrite forallb_forall in K. now apply K.
Qed.

Lemma resolver_equation (st : App) :
  ecuacion_value (snd (resolver_ecuacion env st)) = ecuacion_value st
  /\ (p_equation (solution_params (snd (resolver_ecuacion env st)))
      = p_equation (solution_params st)
      \/ p_equation (solution_params (snd (resolver_ecuacion env st)))
         = or_empty (ecuacion_value st)).
Proof.
  unfold resolver_ecuacion.
  destruct (falsy _ || falsy _ || falsy _ || falsy _); [simpl; auto|].
  destruct (py_eval _ _) as [f|e].
  2:{ destruct (is_syntax_error e), (is_name_error e); simpl; auto. }
  destruct (py_float env (or_empty (t0_value st))); [|simpl; auto].
  destruct (py_float env (or_empty (y0_value st))); [|simpl; auto].
  destruct (py_float env (or_empty (tf_value st))); [|simpl; auto].
  destruct (PyFloat.leb _ _); [simpl; auto|].
  destruct (solve_ivp _ _ _ _ _) as [s|e]; [|simpl; auto].
  destruct (negb (success s)); [simpl; auto|].
  unfold store_and_plot.
  destruct (named_temporary_file env);
    [destruct (savefig env _ _ _ _)|];
    cbn [fst snd ecuacion_value solution_params p_equation show_error
         show_success set_resultado_color set_resultado_value
         set_grafica_visible set_grafica_src set_samples
         set_estado_grafica_value set_boton_grafica_disabled
         set_solution_params set_current_solution entering set_ivp_calls];
    auto.
Qed.

Lemma worker_equation (ts : string) (st : App) :
  ecuacion_value (worker env ts st) = ecuacion_value st
  /\ solution_params (worker env ts st) = solution_params st.
Proof.
  unfold worker, crear_grafica_externa.
  destruct (current_solution st); [|simpl; auto].
  destruct (makedirs env _); [|simpl; auto].
  destruct (plot_figure env _ _ _);
    [destruct (write_text env _ _); [| |destruct (plt_close env)]|];
    cbn [fst snd]; try destruct (webbrowser_open env _);
    cbn [ecuacion_value solution_params set_boton_grafica_disabled
         set_estado_grafica_value set_browser set_files set_samples]; auto.
Qed.

Lemma perform_only_keypad (a : action) (st : App) :
  only_keypad st -> only_keypad (perform env a st).
Proof.
  intros [He Hp]. destruct a as [b|x|x|x| |ts| ]; unfold perform.
  - destruct (existsb _ _) eqn:B; [|split; assumption].
    split; [|exact Hp]. simpl. rewrite keypad_text_app, He.
    now rewrite keypad_text_symbol.
  - split; assumption.
  - split; assumption.
  - split; assumption.
  - destruct (resolver_equation st) as [E [P|P]]; split; unfold only_keypad;
      rewrite ?E, ?P; assumption.
  - destruct (boton_grafica_disabled st); [split; assumption|].
    unfold mostrar_grafica_externa.
    destruct (current_solution st); cbn [fst snd]; [|split; assumption].
    destruct (worker_equation ts
                (set_estado_grafica_value "Generando gráfica..."
                   (set_boton_grafica_disabled true st))) as [E P].
    split; unfold only_keypad; rewrite ?E, ?P; assumption.
  - split; [reflexivity|exact Hp].
Qed.

Lemma run_only_keypad (l : list action) :
  forall st, only_keypad st -> only_keypad (run env l st).
Proof.
  induction l as [|a r IH]; intros st H; simpl; auto.
  apply IH. now apply perform_only_keypad.
Qed.

Lemma initial_only_keypad : only_keypad initial.
Proof. split; reflexivity. Qed.


End ExportedDocument.

(** ** Worked inputs, on the executable instance *)

Section Worked.

(** C1.  The equation [ty], typed with the keys t and y, names something
    outside the whitelist, and yet: [eval] builds the function without
    complaint; with valid numbers the name fails only inside [solve_ivp]
    and ends in the general handler, not in the branch for unknown names;
    with a bad range the range error is reported and the name is never
    looked at.  A name of the builtins module, such as [abs], is resolved
    by the function although it is outside the whitelist, and the equation
    is solved. *)
Theorem unknown_symbol_not_rejected :
  existsb (String.eqb "ty") whitelist = false
  /\ compiled Exact.env (Exact.typed "ty" "0" "1" "1")
     = Ok (VClosure ["t"; "y"] (EName "ty"))
  /\ fst (resolver_ecuacion Exact.env (Exact.typed "ty" "0" "1" "1"))
     = Caught Solving (name_error "ty")
  /\ resultado_value
       (snd (resolver_ecuacion Exact.env (Exact.typed "ty" "0" "1" "1")))
     = "❌ Error: name 'ty' is not defined"
  /\ fst (resolver_ecuacion Exact.env (Exact.typed "ty" "1" "1" "0"))
     = InvalidRange
  /\ existsb (String.eqb "abs") whitelist = false
  /\ resolve Exact.interp [("t", VFloat (Fin 0)); ("y", VFloat (Fin 1))] "abs"
     = Some (VBuiltin "abs")
  /\ fst (resolver_ecuacion Exact.env (Exact.typed "abs(y)" "0" "1" "1"))
     = Solved.
Proof. repeat split; vm_compute; reflexivity. Qed.

Lemma failed_solve_keeps_solution_witness :
  solve_failed
    (fst (resolver_ecuacion Exact.env
            (set_tf_value (Some "abc") Exact.after_solve))) = true
  /\ exportCurrent Exact.env Exact.stamp
       (snd (resolver_ecuacion Exact.env
               (set_tf_value (Some "abc") Exact.after_solve)))
     = exportCurrent Exact.env Exact.stamp
         (set_tf_value (Some "abc") Exact.after_solve).
Proof.
  split; [vm_compute; reflexivity|].
  apply (failed_solve_keeps_solution Exact.env Exact.stamp
           (set_tf_value (Some "abc") Exact.after_solve)).
  vm_compute; reflexivity.
Defined.

Lemma clear_then_export_no_solution_witness :
  all_solves_fail Exact.env [TypeTf "abc"; Resolver; VerGrafica Exact.stamp]
    (limpiar_ecuacion Exact.after_solve) = true
  /\ exportCurrent Exact.env Exact.stamp
       (run Exact.env [TypeTf "abc"; Resolver; VerGrafica Exact.stamp]
          (limpiar_ecuacion Exact.after_solve))
     = NoSolution.
Proof.
  split; [vm_compute; reflexivity|].
  apply (clear_then_export_no_solution Exact.env Exact.stamp Exact.after_solve
           [TypeTf "abc"; Resolver; VerGrafica Exact.stamp]).
  vm_compute; reflexivity.
Defined.

Lemma invalid_range_rejected_witness :
  fields_present (Exact.typed "y" "1" "1" "0") = true
  /\ compiled Exact.env (Exact.typed "y" "1" "1" "0")
     = Ok (VClosure ["t"; "y"] (EName "y"))
  /\ numbers Exact.env (Exact.typed "y" "1" "1" "0")
     = Some (Fin 1, Fin 1, Fin 0)
  /\ PyFloat.leb (Fin 0) (Fin 1) = true
  /\ ivp_calls (snd (resolver_ecuacion Exact.env
                       (Exact.typed "y" "1" "1" "0")))
     = ivp_calls (Exact.typed "y" "1" "1" "0").
Proof.
  assert (P : fields_present (Exact.typed "y" "1" "1" "0") = true)
    by (vm_compute; reflexivity).
  assert (C : compiled Exact.env (Exact.typed "y" "1" "1" "0")
              = Ok (VClosure ["t"; "y"] (EName "y")))
    by (vm_compute; reflexivity).
  assert (N : numbers Exact.env (Exact.typed "y" "1" "1" "0")
              = Some (Fin 1, Fin 1, Fin 0))
    by (vm_compute; reflexivity).
  assert (L : PyFloat.leb (Fin 0) (Fin 1) = true) by reflexivity.
  destruct (invalid_range_rejected_before_integration Exact.env
              (Exact.typed "y" "1" "1" "0")
              (VClosure ["t"; "y"] (EName "y")) (Fin 1) (Fin 1) (Fin 0)
              P C N L) as (_ & H & _).
  exact (conj P (conj C (conj N (conj L H)))).
Defined.

(** C5, the claim refuted: with tf = inf the three values are read, one
    of them is not finite, and [solve_ivp] is called all the same. *)
Lemma nonfinite_tf_is_integrated :
  numbers Exact.env (Exact.typed "y" "0" "1" "inf")
  = Some (Fin 0, Fin 1, PInf)
  /\ PyFloat.is_finite PInf = false
  /\ ivp_calls (Exact.typed "y" "0" "1" "inf") = []
  /\ ivp_calls (snd (resolver_ecuacion Exact.env
                       (Exact.typed "y" "0" "1" "inf")))
     = [(VClosure ["t"; "y"] (EName "y"), Fin 0, PInf, Fin 1)].
Proof. repeat split; vm_compute; reflexivity. Qed.

Lemma nonfinite_request_reaches_solver_witness :
  fields_present (Exact.typed "y" "0" "1" "nan") = true
  /\ compiled Exact.env (Exact.typed "y" "0" "1" "nan")
     = Ok (VClosure ["t"; "y"] (EName "y"))
  /\ numbers Exact.env (Exact.typed "y" "0" "1" "nan")
     = Some (Fin 0, Fin 1, NaN)
  /\ PyFloat.is_finite (Fin 0) && PyFloat.is_finite (Fin 1)
     && PyFloat.is_finite NaN = false
  /\ ivp_calls (snd (resolver_ecuacion Exact.env
                       (Exact.typed "y" "0" "1" "nan")))
     = (VClosure ["t"; "y"] (EName "y"), Fin 0, NaN, Fin 1)
       :: ivp_calls (Exact.typed "y" "0" "1" "nan").
Proof.
  assert (P : fields_present (Exact.typed "y" "0" "1" "nan") = true)
    by (vm_compute; reflexivity).
  assert (C : compiled Exact.env (Exact.typed "y" "0" "1" "nan")
              = Ok (VClosure ["t"; "y"] (EName "y")))
    by (vm_compute; reflexivity).
  assert (N : numbers Exact.env (Exact.typed "y" "0" "1" "nan")
              = Some (Fin 0, Fin 1, NaN))
    by (vm_compute; reflexivity).
  assert (F : PyFloat.is_finite (Fin 0) && PyFloat.is_finite (Fin 1)
              && PyFloat.is_finite NaN = false) by reflexivity.
  pose proof (nonfinite_request_reaches_solver Exact.env
                (Exact.typed "y" "0" "1" "nan")
                (VClosure ["t"; "y"] (EName "y")) (Fin 0) (Fin 1) NaN
                P C N F) as H.
  exact (conj P (conj C (conj N (conj F H)))).
Defined.

(** C6, the claim refuted: t0 is not a number, all fields are filled in,
    and the error reported is the syntax error of the equation. *)
Lemma syntax_error_precedes_not_a_number :
  fields_present (Exact.typed ")" "abc" "1" "2") = true
  /\ py_float Exact.env "abc" = None
  /\ numbers Exact.env (Exact.typed ")" "abc" "1" "2") = None
  /\ fst (resolver_ecuacion Exact.env (Exact.typed ")" "abc" "1" "2"))
     = SyntaxErr.
Proof. repeat split; vm_compute; reflexivity. Qed.


Lemma export_repeats_inline_sample_witness :
  fst (resolver_ecuacion Exact.env (Exact.typed "y" "0" "1" "1")) = Solved
  /\ exists x,
       samples (snd (resolver_ecuacion Exact.env
                       (Exact.typed "y" "0" "1" "1")))
       = x :: samples (Exact.typed "y" "0" "1" "1")
       /\ (samples (snd (crear_grafica_externa Exact.env Exact.stamp
                           (snd (resolver_ecuacion Exact.env
                                   (Exact.typed "y" "0" "1" "1")))))
           = x :: x :: samples (Exact.typed "y" "0" "1" "1")
           \/ (exists e,
                 makedirs Exact.env
                   (path_join (gettempdir Exact.env) "calcediff") = Raise e)
              /\ samples (snd (crear_grafica_externa Exact.env Exact.stamp
                                 (snd (resolver_ecuacion Exact.env
                                         (Exact.typed "y" "0" "1" "1")))))
                 = x :: samples (Exact.typed "y" "0" "1" "1")).
Proof.
  assert (H : fst (resolver_ecuacion Exact.env (Exact.typed "y" "0" "1" "1"))
              = Solved) by (vm_compute; reflexivity).
  split; [exact H|].
  exact (export_repeats_inline_sample Exact.env Exact.stamp
           (Exact.typed "y" "0" "1" "1") H).
Defined.

End Worked.

(** ** Keypad text never makes a tuple *)

Section KeypadText.
Import PyText.

Local Open Scope list_scope.

Lemma flush_no_comma (p : pending) (ts : list token) :
  flush p = Some ts -> ~ In TComma ts.
Proof.
  destruct p; simpl; intros H I;
    repeat match type of H with
           | context [if ?b then _ else _] => destruct b
           end;
    try discriminate; injection H as <-;
    try (apply repeat_spec in I; discriminate);
    simpl in I; intuition discriminate.
Qed.

Lemma start_comma (c : ascii) (ts : list token) (p : pending) :
  start c = Some (ts, p) -> In TComma ts -> c = ","%char.
Proof.
  unfold start. intros H I.
  repeat match type of H with
         | context [if Ascii.eqb c ?k then _ else _] =>
             destruct (Ascii.eqb_spec c k)
         | context [if ?b then _ else _] => destruct b
         end;
    try discriminate; injection H as <- <-; simpl in I;
    try assumption; intuition discriminate.
Qed.

Lemma flush_start_comma (p : pending) (c : ascii) (ts : list token)
      (p' : pending) :
  flush_start p c = Some (ts, p') -> In TComma ts -> c = ","%char.
Proof.
  unfold flush_start. intros H I.
  destruct (flush p) as [done|] eqn:F; [|discriminate].
  destruct (start c) as [[more q]|] eqn:S; [|discriminate].
  injection H as <- <-. apply in_app_or in I. destruct I as [I|I].
  - now apply flush_no_comma in F.
  - eapply start_comma; eauto.
Qed.

Lemma step_comma (p : pending) (c : ascii) (ts : list token) (p' : pending) :
  step p c = Some (ts, p') -> In TComma ts -> c = ","%char.
Proof.
  intros H I. destruct p; simpl in H;
    try (eapply start_comma; eassumption);
    repeat match type of H with
           | flush_start _ _ = _ => fail 1
           | context [if ?b then _ else _] => destruct b
           end;
    try discriminate;
    try (eapply flush_start_comma; eassumption);
    injection H as <- <-;
    try (apply repeat_spec in I; discriminate);
    simpl in I; intuition discriminate.
Qed.

Lemma lex_no_comma (cs : list ascii) :
  forall p ts,
    lex p cs = Some ts -> ~ In ","%char cs -> ~ In TComma ts.
Proof.
  induction cs as [|c r IH]; intros p ts H N; simpl in H.
  - now apply flush_no_comma in H.
  - destruct (step p c) as [[done p']|] eqn:S; [|discriminate].
    destruct (lex p' r) as [more|] eqn:L; [|discriminate].
    injection H as <-. intros I. apply in_app_or in I. destruct I as [I|I].
    + apply N. left. eapply step_comma; eauto.
    + eapply IH; eauto. intros J. apply N. now right.
Qed.

Lemma tokenize_lambda (s : string) :
  tokenize ("lambda t, y: " ++ s)
  = match tokenize s with
    | Some ts =>
        Some (TLambda :: TName "t" :: TComma :: TName "y" :: TColon :: ts)
    | None => None
    end.
Proof.
  unfold tokenize. simpl. destruct (lex PNone (list_ascii_of_string s));
    reflexivity.
Qed.

Ltac split_parser H :=
  repeat match type of H with
         | match ?x with _ => _ end = Some _ =>
             let E := fresh "E" in destruct x eqn:E; try discriminate
         | Some _ = Some _ => injection H as <- <-
         end.

Ltac part_of :=
  subst;
  repeat match goal with
         | IH : leaves_part ?f, E : ?f _ = Some (_, _) |- _ =>
             apply IH in E
         | IH : forall l, leaves_part (?f l), E : ?f _ _ = Some (_, _) |- _ =>
             apply IH in E
         end;
  unfold incl in *; eauto 7 using in_cons.

Lemma parsers_leave_part (n : nat) :
  leaves_part (p_arith n)
  /\ (forall l, leaves_part (p_arith_rest n l))
  /\ leaves_part (p_term n)
  /\ (forall l, leaves_part (p_term_rest n l))
  /\ leaves_part (p_factor n)
  /\ (forall a, leaves_part (p_trailers n a))
  /\ leaves_part (p_items n)
  /\ leaves_part (p_atom n).
Proof.
  induction n as [|n (IA & IAR & IT & ITR & IF & ITL & II & IAT)].
  - repeat split; unfold leaves_part; intros; discriminate.
  - repeat split; unfold leaves_part; intros;
      match goal with
      | H : _ = Some (_, _) |- _ => simpl in H; split_parser H
      end; part_of.
Qed.

Lemma parse_lambda_no_tuple (s : string) :
  ~ In ","%char (list_ascii_of_string s) ->
  forall ps body rest,
    parse ("lambda t, y: " ++ s)%string <> Some (STuple ps body rest).
Proof.
  intros N ps body rest. unfold parse. rewrite tokenize_lambda.
  destruct (tokenize s) as [ts|] eqn:T; [|discriminate].
  unfold parse_tokens. simpl p_params. cbv iota beta.
  destruct (p_arith (fuel_for ts) ts) as [[b r]|] eqn:A; [|discriminate].
  destruct r as [|tok r2]; [discriminate|].
  destruct tok; try discriminate.
  exfalso. apply (lex_no_comma _ _ _ T N).
  destruct (parsers_leave_part (fuel_for ts)) as (IA & _).
  apply (IA _ _ _ A). now left.
Qed.

Lemma replace_caret_chars (s : string) (c : ascii) :
  In c (list_ascii_of_string (replace_caret s)) ->
  c = "*"%char \/ In c (list_ascii_of_string s).
Proof.
  induction s as [|d s IH]; simpl; [tauto|].
  destruct (Ascii.eqb d "^"); simpl; intuition.
Qed.

Lemma keypad_text_no_comma (s : string) :
  keypad_text s = true ->
  ~ In ","%char (list_ascii_of_string (replace_caret s)).
Proof.
  intros K I. apply replace_caret_chars in I. destruct I as [E|I];
    [discriminate|].
  unfold keypad_text in K. rewrite forallb_forall in K.
  specialize (K _ I). vm_compute in K. discriminate.
Qed.


Lemma parse_lambda_params (s : string) (ps : list string) (body : expr) :
  parse ("lambda t, y: " ++ s)%string = Some (SLambda ps body) ->
  ps = ["t"; "y"]%string.
Proof.
  unfold parse. rewrite tokenize_lambda.
  destruct (tokenize s) as [ts|]; [|discriminate].
  unfold parse_tokens. simpl p_params. cbv iota beta.
  destruct (p_arith (fuel_for ts) ts) as [[b r]|]; [|discriminate].
  destruct r as [|tok r2]; [intros E; now injection E|].
  destruct tok; try discriminate.
  destruct (p_rest _ _); discriminate.
Qed.

(** Keypad text handed to [eval]: a syntax error, or a function of t and
    y. *)
Lemma keypad_compiles (env : Env) (st : App) :
  (forall text, py_parse (interp env) text = parse text) ->
  keypad_text (or_empty (ecuacion_value st)) = true ->
  compiled env st = Raise syntax_error
  \/ exists body, compiled env st = Ok (VClosure ["t"; "y"]%string body).
Proof.
  intros R K. unfold compiled, py_eval. rewrite R.
  destruct (parse ("lambda t, y: "
                     ++ replace_caret (or_empty (ecuacion_value st)))%string)
    as [[ps body|ps body rest]|] eqn:E.
  - right. apply parse_lambda_params in E as ->. now exists body.
  - exfalso. revert E.
    apply (parse_lambda_no_tuple _ (keypad_text_no_comma _ K)).
  - now left.
Qed.



End KeypadText.

(** ** The equation field: keys, the caret, clearing *)

Section EquationField.
Context (env : Env).

Lemma replace_caret_app (a b : string) :
  replace_caret (a ++ b) = replace_caret a ++ replace_caret b.
Proof.
  induction a as [|c a IH]; simpl; [reflexivity|].
  destruct (Ascii.eqb c "^"); simpl; now rewrite IH.
Qed.

Lemma replace_caret_no_caret (s : string) :
  ~ In "^"%char (list_ascii_of_string (replace_caret s)).
Proof.
  induction s as [|c s IH]; simpl; [tauto|].
  destruct (Ascii.eqb_spec c "^"); simpl.
  - intros [H|[H|H]]; try discriminate. now apply IH.
  - intros [H|H]; [congruence|now apply IH].
Qed.

Lemma replace_caret_id (s : string) :
  ~ In "^"%char (list_ascii_of_string s) -> replace_caret s = s.
Proof.
  induction s as [|c s IH]; simpl; [reflexivity|]. intros N.
  destruct (Ascii.eqb_spec c "^") as [->|_]; [exfalso; apply N; now left|].
  rewrite IH; [reflexivity|]. intros H. apply N. now right.
Qed.

(** The number of carets of a text. *)
Lemma replace_caret_length (s : string) :
  String.length (replace_caret s)
  = (String.length s
     + List.length (filter (Ascii.eqb "^"%char) (list_ascii_of_string s)))%nat.
Proof.
  induction s as [|c s IH]; [reflexivity|].
  cbn [replace_caret list_ascii_of_string filter].
  destruct (Ascii.eqb_spec c "^"), (Ascii.eqb_spec "^"%char c);
    try congruence; cbn [String.length List.length]; rewrite IH; lia.
Qed.

(** Line 277.  The replacement of [^] by [**] leaves no caret behind, turns
    each caret into two characters and leaves every other character in its
    place: it is the identity on a text without carets, hence idempotent,
    and it can be done piece by piece. *)
Theorem caret_normalisation (a b : string) :
  ~ In "^"%char (list_ascii_of_string (replace_caret a))
  /\ replace_caret (replace_caret a) = replace_caret a
  /\ replace_caret (a ++ b) = replace_caret a ++ replace_caret b
  /\ String.length (replace_caret a)
     = (String.length a
        + List.length
            (filter (Ascii.eqb "^"%char) (list_ascii_of_string a)))%nat
  /\ (forall c, c <> "^"%char -> c <> "*"%char ->
        List.length (filter (Ascii.eqb c)
                       (list_ascii_of_string (replace_caret a)))
        = List.length (filter (Ascii.eqb c) (list_ascii_of_string a))).
Proof.
  repeat split.
  - apply replace_caret_no_caret.
  - apply replace_caret_id, replace_caret_no_caret.
  - apply replace_caret_app.
  - apply replace_caret_length.
  - intros c Hc Hs. induction a as [|d a IH]; simpl; [reflexivity|].
    destruct (Ascii.eqb_spec d "^") as [->|Hd]; simpl.
    + destruct (Ascii.eqb_spec c "*"); [contradiction|].
      destruct (Ascii.eqb_spec c "^"); [contradiction|]. exact IH.
    + destruct (Ascii.eqb c d); simpl; now rewrite IH.
Qed.

Lemma string_append_assoc (a b c : string) :
  (a ++ b) ++ c = a ++ (b ++ c).
Proof. induction a as [|x a IH]; simpl; [reflexivity|]. now rewrite IH. Qed.

(** Pressing the keys of a list one after the other. *)
Lemma press_all_equation (keys : list string) :
  forall st,
    fold_left (fun s k => agregar_simbolo k s) keys st
    = set_ecuacion_value
        (match keys with
         | [] => ecuacion_value st
         | _ => Some (or_empty (ecuacion_value st)
                        ++ String.concat EmptyString keys)
         end) st.
Proof.
  induction keys as [|k r IH]; intros st.
  - destruct st; reflexivity.
  - simpl fold_left. rewrite IH. unfold agregar_simbolo.
    destruct st as [ec t0 y0 tf rv rc gs gv bd eg cs sp ic sm fl br].
    cbn [ecuacion_value set_ecuacion_value or_empty].
    destruct r as [|k' r']; unfold set_ecuacion_value; simpl;
      rewrite ?string_append_assoc; reflexivity.
Qed.

(** Lines 108-112.  Keys pressed one after the other append their labels
    to the equation field, in the order pressed, and change nothing else
    of the state. *)
Theorem key_presses_append (keys : list string) (st : App) :
  or_empty (ecuacion_value
              (fold_left (fun s k => agregar_simbolo k s) keys st))
  = or_empty (ecuacion_value st) ++ String.concat EmptyString keys
  /\ set_ecuacion_value (ecuacion_value st)
       (fold_left (fun s k => agregar_simbolo k s) keys st)
     = st.
Proof.
  rewrite press_all_equation.
  destruct st as [ec t0 y0 tf rv rc gs gv bd eg cs sp ic sm fl br].
  destruct keys as [|k r]; cbn [ecuacion_value set_ecuacion_value or_empty].
  - split; [|reflexivity]. simpl. clear. destruct ec as [e|]; simpl;
      [|reflexivity]. induction e as [|c e IH]; simpl; congruence.
  - split; reflexivity.
Qed.

(** Lines 114-124 and 271-274.  Clearing twice is clearing once.  After
    clearing, [resolver_ecuacion] answers that all fields are required,
    and keeps answering so whatever keys are pressed, until the three
    values are typed again.  Clearing leaves [solution_params], the status
    line under the buttons and the path of the last image as they were. *)
Theorem clear_resets_the_form (st : App) (keys : list string) :
  limpiar_ecuacion (limpiar_ecuacion st) = limpiar_ecuacion st
  /\ resolver_ecuacion env (limpiar_ecuacion st)
     = (MissingField,
        show_error "Todos los campos son obligatorios" (limpiar_ecuacion st))
  /\ fst (resolver_ecuacion env
            (fold_left (fun s k => agregar_simbolo k s) keys
               (limpiar_ecuacion st)))
     = MissingField
  /\ or_empty (ecuacion_value
                 (fold_left (fun s k => agregar_simbolo k s) keys
                    (limpiar_ecuacion st)))
     = String.concat EmptyString keys
  /\ solution_params (limpiar_ecuacion st) = solution_params st
  /\ estado_grafica_value (limpiar_ecuacion st) = estado_grafica_value st
  /\ grafica_src (limpiar_ecuacion st) = grafica_src st.
Proof.
  split; [destruct st; vm_compute; reflexivity|].
  split; [apply resolver_missing; reflexivity|].
  split.
  { rewrite resolver_missing; [reflexivity|].
    rewrite press_all_equation. unfold fields_present.
    assert (T : t0_value (limpiar_ecuacion st) = Some EmptyString)
      by reflexivity.
    destruct keys; cbn [t0_value set_ecuacion_value]; rewrite ?T;
      cbn [falsy String.eqb]; now rewrite !orb_true_r. }
  split.
  { rewrite press_all_equation.
    destruct keys; cbn [ecuacion_value set_ecuacion_value]; reflexivity. }
  split; [reflexivity|]. split; reflexivity.
Qed.

End EquationField.

(** ** What a solve shows and what it leaves alone *)

Section Outcome.
Context (env : Env).

Ltac resolver_paths st :=
  unfold resolver_ecuacion;
  destruct (falsy (ecuacion_value st) || falsy (t0_value st)
            || falsy (y0_value st) || falsy (tf_value st));
  [|destruct (py_eval (interp env)
               ("lambda t, y: "
                  ++ replace_caret (or_empty (ecuacion_value st))))
      as [?f|?e];
    [destruct (py_float env (or_empty (t0_value st))) as [?t0|];
     [destruct (py_float env (or_empty (y0_value st))) as [?y0|];
      [destruct (py_float env (or_empty (tf_value st))) as [?tf|];
       [destruct (PyFloat.leb tf t0) eqn:?L;
        [|destruct (solve_ivp env f t0 tf y0) as [?s|?e];
          [destruct (success s) eqn:?S; cbn [negb];
           [unfold store_and_plot;
            destruct (named_temporary_file env) as [?p|?e];
            [destruct (savefig env _ _ _ _) as [?u|?e]|]|]|]]|]|]|]
    |destruct (is_syntax_error e); [|destruct (is_name_error e)]]].

(** Lines 269-324 and 364-365.  The message on the screen after a click on
    "Resolver": each way out of [resolver_ecuacion] has its own text, shown
    in red behind the error prefix, and only a completed solve shows the
    green line with the final time and the final value to six decimals. *)
Theorem result_text_tells_the_outcome (st : App) :
  match fst (resolver_ecuacion env st) with
  | Solved =>
      resultado_color (snd (resolver_ecuacion env st)) = GREEN_700
      /\ exists s,
           current_solution (snd (resolver_ecuacion env st)) = Some s
           /\ resultado_value (snd (resolver_ecuacion env st))
              = "✅ y("
                  ++ str_float env
                       (p_tf (solution_params
                                (snd (resolver_ecuacion env st))))
                  ++ ") ≈ " ++ format_6f env (y_final s)
  | x =>
      resultado_color (snd (resolver_ecuacion env st)) = RED_600
      /\ resultado_value (snd (resolver_ecuacion env st))
         = "❌ Error: "
             ++ match x with
                | MissingField => "Todos los campos son obligatorios"
                | SyntaxErr => "La ecuación tiene errores de sintaxis"
                | UnknownSymbol =>
                    match compiled env st with
                    | Raise e => "Variable no definida: " ++ exn_str e
                    | Ok _ => EmptyString
                    end
                | NotANumber => "Los valores deben ser números"
                | InvalidRange =>
                    "El tiempo final (tf) debe ser mayor que el tiempo inicial (t0)"
                | SolverFailed =>
                    "No se pudo resolver la ecuación diferencial"
                | Caught _ e => exn_str e
                | Solved => EmptyString
                end
  end.
Proof.
  unfold compiled. resolver_paths st; cbn [fst snd]; try (split; reflexivity).
  split; [reflexivity|]. exists s. split; reflexivity.
Qed.

Lemma set_ivp_calls_same (st : App) : set_ivp_calls (ivp_calls st) st = st.
Proof. destruct st; reflexivity. Qed.

(** Lines 269-324.  A solve that fails changes the result text and nothing
    else: the fields, the image on the screen and its visibility, the
    graph button, the status line, the stored solution and its parameters
    are exactly as before (the integrator may have been called once). *)
Theorem failed_solve_changes_only_the_result_text (st : App) :
  solve_failed (fst (resolver_ecuacion env st)) = true ->
  exists msg calls,
    snd (resolver_ecuacion env st)
    = show_error msg (set_ivp_calls calls st)
    /\ (calls = ivp_calls st
        \/ exists c, calls = c :: ivp_calls st).
Proof.
  resolver_paths st; cbn [fst snd solve_failed]; intros H;
    try discriminate;
    try (eexists; exists (ivp_calls st); rewrite set_ivp_calls_same;
         split; [reflexivity|now left]);
    eexists; eexists; (split; [reflexivity|right; eexists; reflexivity]).
Qed.

End Outcome.

(** ** The export and the effects of each action *)

Section Effects.
Context (env : Env).

Ltac crear_paths st :=
  unfold crear_grafica_externa;
  destruct (current_solution st) as [?s|] eqn:?C;
  [destruct (makedirs env (path_join (gettempdir env) "calcediff"))
     as [?u|?e];
   [destruct (plot_figure env _ _ _) as [?u|?e];
    [destruct (write_text env _ _) as [?e|?w ?e|];
     [| |destruct (plt_close env) as [?u|?e]]|]|]|].

Lemma export_path_form (ts : string) (st : App) :
  match fst (crear_grafica_externa env ts st) with
  | Some p =>
      p = path_join (path_join (gettempdir env) "calcediff")
            ("grafica_" ++ ts ++ ".html")
  | None => True
  end.
Proof.
  crear_paths st; cbn [fst]; auto.
Qed.

(** Lines 126-235.  [crear_grafica_externa] returns a path only when a
    solution is stored, the file of that path,
    [<tmp>/calcediff/grafica_<timestamp>.html], has been written whole and
    [plt.close()] has returned.  When it returns [None] it has written
    nothing, or it has left one file of that same path behind: the writing
    broke off, or [plt.close()] raised after the file was written.  Either
    way the call of the integrator is not repeated, the browser is not
    opened, and the stored solution, its parameters and the texts on the
    screen stay as they are. *)
Theorem export_writes_one_file_or_none (ts : string) (st : App) :
  match fst (crear_grafica_externa env ts st) with
  | Some p =>
      p = path_join (path_join (gettempdir env) "calcediff")
            ("grafica_" ++ ts ++ ".html")
      /\ exists s,
           current_solution st = Some s
           /\ files (snd (crear_grafica_externa env ts st))
              = (p,
                 html_content (p_equation (solution_params st))
                   (str_float_list env
                      (map (round3 env)
                         (fst (sample s (p_t0 (solution_params st))
                                        (p_tf (solution_params st))))))
                   (str_float_list env
                      (snd (sample s (p_t0 (solution_params st))
                                     (p_tf (solution_params st))))))
                :: files st
  | None =>
      files (snd (crear_grafica_externa env ts st)) = files st
      \/ exists content,
           files (snd (crear_grafica_externa env ts st))
           = (path_join (path_join (gettempdir env) "calcediff")
                ("grafica_" ++ ts ++ ".html"), content) :: files st
  end
  /\ ivp_calls (snd (crear_grafica_externa env ts st)) = ivp_calls st
  /\ browser (snd (crear_grafica_externa env ts st)) = browser st
  /\ current_solution (snd (crear_grafica_externa env ts st))
     = current_solution st
  /\ solution_params (snd (crear_grafica_externa env ts st))
     = solution_params st
  /\ resultado_value (snd (crear_grafica_externa env ts st))
     = resultado_value st
  /\ estado_grafica_value (snd (crear_grafica_externa env ts st))
     = estado_grafica_value st.
Proof.
  crear_paths st;
    cbn [fst snd files ivp_calls browser current_solution solution_params
         resultado_value estado_grafica_value set_files set_samples];
    rewrite ?C; (split; [|repeat split; reflexivity]);
    try (left; reflexivity); try (right; eexists; reflexivity).
  split; [reflexivity|]. eexists. split; reflexivity.
Qed.

Lemma string_append_inv_head (a x y : string) :
  a ++ x = a ++ y -> x = y.
Proof.
  induction a as [|c a IH]; simpl; intros H; [exact H|].
  injection H as H. now apply IH.
Qed.

Lemma string_append_inv_tail (x y c : string) :
  x ++ c = y ++ c -> x = y.
Proof.
  intros H.
  rewrite <- (string_of_list_ascii_of_string x),
          <- (string_of_list_ascii_of_string y).
  f_equal. apply (app_inv_tail (list_ascii_of_string c)).
  rewrite <- !list_ascii_of_string_app. now rewrite H.
Qed.

(** Line 142.  The name of the exported file depends on the timestamp
    alone: two exports give the same path exactly when their timestamps
    are the same text (as for two exports within one second). *)
Theorem export_path_is_the_timestamp
        (ts1 ts2 : string) (st1 st2 : App) (p1 p2 : string) :
  fst (crear_grafica_externa env ts1 st1) = Some p1 ->
  fst (crear_grafica_externa env ts2 st2) = Some p2 ->
  (p1 = p2 <-> ts1 = ts2).
Proof.
  intros H1 H2.
  pose proof (export_path_form ts1 st1) as F1.
  pose proof (export_path_form ts2 st2) as F2.
  rewrite H1 in F1. rewrite H2 in F2. subst p1 p2. split.
  - unfold path_join. intros E.
    apply string_append_inv_head in E. apply string_append_inv_head in E.
    apply string_append_inv_head in E.
    now apply string_append_inv_tail in E.
  - now intros ->.
Qed.

Lemma worker_state (ts : string) (st : App) :
  ivp_calls (worker env ts st) = ivp_calls st
  /\ current_solution (worker env ts st) = current_solution st
  /\ solution_params (worker env ts st) = solution_params st.
Proof.
  unfold worker. crear_paths st; cbn [fst snd];
    try destruct (webbrowser_open env _);
    cbn [current_solution solution_params ivp_calls
         set_boton_grafica_disabled set_estado_grafica_value set_browser
         set_files set_samples];
    rewrite ?C; repeat split.
Qed.

(** Lines 248-262.  The worker thread opens the browser only on the file
    that [crear_grafica_externa] has just written whole, and at most once;
    when no path came back the browser stays closed, although a file may
    have been left behind.  It touches neither the stored solution nor the
    result text, and never calls the integrator. *)
Theorem worker_opens_what_it_wrote (ts : string) (st : App) :
  current_solution (worker env ts st) = current_solution st
  /\ solution_params (worker env ts st) = solution_params st
  /\ resultado_value (worker env ts st) = resultado_value st
  /\ ivp_calls (worker env ts st) = ivp_calls st
  /\ files (worker env ts st)
     = files (snd (crear_grafica_externa env ts st))
  /\ match fst (crear_grafica_externa env ts st) with
     | Some p =>
         (exists html, files (worker env ts st) = (p, html) :: files st)
         /\ match webbrowser_open env ("file://" ++ p) with
            | Ok _ =>
                browser (worker env ts st)
                = ("file://" ++ p) :: browser st
            | Raise e => browser (worker env ts st) = browser st
            end
     | None => browser (worker env ts st) = browser st
     end.
Proof.
  unfold worker. crear_paths st; cbn [fst snd];
    try destruct (webbrowser_open env _) as [?u|?e];
    cbn [boton_grafica_disabled current_solution solution_params
         resultado_value ivp_calls files browser estado_grafica_value
         set_boton_grafica_disabled set_estado_grafica_value set_browser
         set_files set_samples];
    rewrite ?C; repeat split; try reflexivity; eexists; reflexivity.
Qed.

Lemma resolver_effects (st : App) :
  files (snd (resolver_ecuacion env st)) = files st
  /\ browser (snd (resolver_ecuacion env st)) = browser st
  /\ (ivp_calls (snd (resolver_ecuacion env st)) = ivp_calls st
      \/ exists c,
           ivp_calls (snd (resolver_ecuacion env st)) = c :: ivp_calls st).
Proof.
  unfold resolver_ecuacion.
  destruct (falsy _ || falsy _ || falsy _ || falsy _); [simpl; auto|].
  destruct (py_eval _ _) as [f|e].
  2:{ destruct (is_syntax_error e), (is_name_error e); simpl; auto. }
  destruct (py_float env (or_empty (t0_value st))); [|simpl; auto].
  destruct (py_float env (or_empty (y0_value st))); [|simpl; auto].
  destruct (py_float env (or_empty (tf_value st))); [|simpl; auto].
  destruct (PyFloat.leb _ _); [simpl; auto|].
  destruct (solve_ivp _ _ _ _ _) as [s|e]; [|simpl; eauto].
  destruct (negb (success s)); [simpl; eauto|].
  unfold store_and_plot.
  destruct (named_temporary_file env);
    [destruct (savefig env _ _ _ _)|];
    cbn [fst snd files browser ivp_calls show_error show_success
         set_resultado_color set_resultado_value set_grafica_visible
         set_grafica_src set_samples set_estado_grafica_value
         set_boton_grafica_disabled set_solution_params
         set_current_solution entering set_ivp_calls];
    eauto.
Qed.

(** What each action of the user can reach.  A click on "Resolver" calls
    the integrator at most once, writes no file and opens no browser.  A
    click on "Ver gráfica" replays the stored solution: it never calls the
    integrator and never changes the stored solution or its parameters.
    Keys, typing and clearing call nothing, sample nothing, write nothing
    and open nothing. *)
Theorem effects_of_each_action (a : action) (st : App) :
  match a with
  | Resolver =>
      files (perform env a st) = files st
      /\ browser (perform env a st) = browser st
      /\ (ivp_calls (perform env a st) = ivp_calls st
          \/ exists c, ivp_calls (perform env a st) = c :: ivp_calls st)
  | VerGrafica _ =>
      ivp_calls (perform env a st) = ivp_calls st
      /\ current_solution (perform env a st) = current_solution st
      /\ solution_params (perform env a st) = solution_params st
  | _ =>
      ivp_calls (perform env a st) = ivp_calls st
      /\ samples (perform env a st) = samples st
      /\ files (perform env a st) = files st
      /\ browser (perform env a st) = browser st
      /\ solution_params (perform env a st) = solution_params st
  end.
Proof.
  destruct a as [b|x|x|x| |ts| ]; unfold perform.
  - destruct (existsb _ _); repeat split.
  - repeat split.
  - repeat split.
  - repeat split.
  - apply resolver_effects.
  - destruct (boton_grafica_disabled st); [repeat split|].
    unfold mostrar_grafica_externa.
    destruct (current_solution st) as [s|] eqn:C; cbn [fst snd];
      [|repeat split; exact C].
    destruct (worker_state ts
                (set_estado_grafica_value "Generando gráfica..."
                   (set_boton_grafica_disabled true st)))
      as (W1 & W2 & W3).
    rewrite W1, W2, W3. repeat split. exact C.
  - repeat split.
Qed.

Lemma resolver_stored (st : App) :
  (current_solution (snd (resolver_ecuacion env st)) = current_solution st
   /\ solution_params (snd (resolver_ecuacion env st)) = solution_params st)
  \/ exists s,
       current_solution (snd (resolver_ecuacion env st)) = Some s
       /\ success s = true
       /\ PyFloat.leb
            (p_tf (solution_params (snd (resolver_ecuacion env st))))
            (p_t0 (solution_params (snd (resolver_ecuacion env st))))
          = false.
Proof.
  unfold resolver_ecuacion.
  destruct (falsy _ || falsy _ || falsy _ || falsy _); [simpl; auto|].
  destruct (py_eval _ _) as [f|e].
  2:{ destruct (is_syntax_error e), (is_name_error e); simpl; auto. }
  destruct (py_float env (or_empty (t0_value st))) as [t0|]; [|simpl; auto].
  destruct (py_float env (or_empty (y0_value st))) as [y0|]; [|simpl; auto].
  destruct (py_float env (or_empty (tf_value st))) as [tf|]; [|simpl; auto].
  destruct (PyFloat.leb tf t0) eqn:L; [simpl; auto|].
  destruct (solve_ivp _ _ _ _ _) as [s|e]; [|simpl; auto].
  destruct (success s) eqn:S; cbn [negb]; [|simpl; auto].
  right. exists s. unfold store_and_plot.
  destruct (named_temporary_file env);
    [destruct (savefig env _ _ _ _)|];
    cbn [fst snd]; repeat split; assumption.
Qed.

Lemma leb_false_lt (a b : Q) : PyFloat.leb (Fin b) (Fin a) = false -> a < b.
Proof.
  simpl. intros H. destruct (Qlt_le_dec a b) as [L|L]; [exact L|].
  apply Qle_bool_iff in L. congruence.
Qed.

Lemma perform_stored (a : action) (st : App) :
  match current_solution st with
  | None => True
  | Some s =>
      success s = true
      /\ PyFloat.leb (p_tf (solution_params st)) (p_t0 (solution_params st))
         = false
  end ->
  match current_solution (perform env a st) with
  | None => True
  | Some s =>
      success s = true
      /\ PyFloat.leb (p_tf (solution_params (perform env a st)))
                     (p_t0 (solution_params (perform env a st)))
         = false
  end.
Proof.
  intros H. destruct a as [b|x|x|x| |ts| ]; unfold perform.
  - destruct (existsb _ _); exact H.
  - exact H.
  - exact H.
  - exact H.
  - destruct (resolver_stored st) as [[E P]|(s & E & S & L)].
    + rewrite E, P. exact H.
    + rewrite E. split; assumption.
  - destruct (boton_grafica_disabled st); [exact H|].
    unfold mostrar_grafica_externa.
    destruct (current_solution st) as [s|] eqn:C; cbn [fst snd].
    + destruct (worker_state ts
                  (set_estado_grafica_value "Generando gráfica..."
                     (set_boton_grafica_disabled true st)))
        as (_ & W2 & W3).
      rewrite W2, W3. cbn [current_solution solution_params
        set_estado_grafica_value set_boton_grafica_disabled].
      rewrite C. exact H.
    + cbn [current_solution show_error set_resultado_color
           set_resultado_value]. now rewrite C.
  - exact I.
Qed.

(** Whatever the user has done since the start, a stored solution is one
    that [solve_ivp] reported as successful, and the interval stored with
    it passed the range test: its final time is not below or equal to its
    initial time, so that finite ends are in strictly increasing order. *)
Theorem stored_solution_invariant (l : list action) :
  match current_solution (run env l initial) with
  | None => True
  | Some s =>
      success s = true
      /\ PyFloat.leb (p_tf (solution_params (run env l initial)))
                     (p_t0 (solution_params (run env l initial)))
         = false
      /\ (forall a b,
            p_t0 (solution_params (run env l initial)) = Fin a ->
            p_tf (solution_params (run env l initial)) = Fin b ->
            a < b)
  end.
Proof.
  assert (G : forall st,
             match current_solution st with
             | None => True
             | Some s =>
                 success s = true
                 /\ PyFloat.leb (p_tf (solution_params st))
                                (p_t0 (solution_params st)) = false
             end ->
             match current_solution (run env l st) with
             | None => True
             | Some s =>
                 success s = true
                 /\ PyFloat.leb (p_tf (solution_params (run env l st)))
                                (p_t0 (solution_params (run env l st)))
                    = false
             end).
  { induction l as [|a r IH]; intros st H; [exact H|].
    simpl. apply IH. now apply perform_stored. }
  specialize (G initial I).
  destruct (current_solution (run env l initial)); [|exact I].
  destruct G as [S L]. repeat split; try assumption.
  intros a b A B. rewrite A, B in L. now apply leb_false_lt.
Qed.

Lemma solved_store (st : App) :
  fst (resolver_ecuacion env st) = Solved ->
  exists s t0 y0 tf,
    numbers env st = Some (t0, y0, tf)
    /\ current_solution (snd (resolver_ecuacion env st)) = Some s
    /\ solution_params (snd (resolver_ecuacion env st))
       = {| p_t0 := t0; p_tf := tf;
            p_equation := or_empty (ecuacion_value st) |}
    /\ files (snd (resolver_ecuacion env st)) = files st.
Proof.
  unfold resolver_ecuacion, numbers.
  destruct (falsy _ || falsy _ || falsy _ || falsy _); [discriminate|].
  destruct (py_eval _ _) as [f|e].
  2:{ destruct (is_syntax_error e), (is_name_error e); discriminate. }
  destruct (py_float env (or_empty (t0_value st))) as [t0|]; [|discriminate].
  destruct (py_float env (or_empty (y0_value st))) as [y0|]; [|discriminate].
  destruct (py_float env (or_empty (tf_value st))) as [tf|]; [|discriminate].
  destruct (PyFloat.leb tf t0); [discriminate|].
  destruct (solve_ivp _ _ _ _ _) as [s|e]; [|discriminate].
  destruct (negb (success s)); [discriminate|].
  unfold store_and_plot.
  destruct (named_temporary_file env);
    [destruct (savefig env _ _ _ _)|]; cbn [fst snd]; try discriminate.
  intros _. exists s, t0, y0, tf. repeat split.
Qed.

(** From the fields to the document.  When a solve completes and the
    export that follows returns a path, the document written holds the
    equation exactly as it stood in the field (carets included), and the
    curve of the solution just stored over the interval read from the t0
    and tf fields: the 500 grid values rounded to three decimals as
    labels and the dense solution on the grid as data. *)
Theorem solved_equation_is_exported (ts : string) (st : App) (p : string) :
  fst (resolver_ecuacion env st) = Solved ->
  fst (crear_grafica_externa env ts (snd (resolver_ecuacion env st)))
  = Some p ->
  exists s t0 y0 tf,
    numbers env st = Some (t0, y0, tf)
    /\ current_solution (snd (resolver_ecuacion env st)) = Some s
    /\ files (snd (crear_grafica_externa env ts
                     (snd (resolver_ecuacion env st))))
       = (p,
          html_content (or_empty (ecuacion_value st))
            (str_float_list env
               (map (round3 env)
                  (Numpy.linspace t0 tf sample_count)))
            (str_float_list env
               (map (sol s) (Numpy.linspace t0 tf sample_count))))
         :: files st.
Proof.
  intros H H0.
  destruct (solved_store st H) as (s & t0 & y0 & tf & N & C & P & F).
  exists s, t0, y0, tf. split; [exact N|]. split; [exact C|].
  revert H0. unfold crear_grafica_externa. rewrite C, P.
  cbn [p_t0 p_tf p_equation].
  destruct (makedirs env _); [|discriminate].
  destruct (plot_figure env _ _ _); [|discriminate].
  destruct (write_text env _ _); try discriminate.
  destruct (plt_close env); [|discriminate].
  cbn [fst snd files set_files set_samples]. intros E. injection E as <-.
  rewrite F. reflexivity.
Qed.

End Effects.

(** ** The result line and the stored solution *)

Section Display.
Context (env : Env).

Lemma resolver_display (st : App) :
  (resultado_color (snd (resolver_ecuacion env st)) = RED_600
   /\ exists msg,
        resultado_value (snd (resolver_ecuacion env st))
        = "❌ Error: " ++ msg)
  \/ (resultado_color (snd (resolver_ecuacion env st)) = GREEN_700
      /\ exists s,
           current_solution (snd (resolver_ecuacion env st)) = Some s
           /\ resultado_value (snd (resolver_ecuacion env st))
              = "✅ y("
                  ++ str_float env
                       (p_tf (solution_params
                                (snd (resolver_ecuacion env st))))
                  ++ ") ≈ " ++ format_6f env (y_final s)).
Proof.
  unfold resolver_ecuacion.
  destruct (falsy _ || falsy _ || falsy _ || falsy _);
    [left; split; [reflexivity|eexists; reflexivity]|].
  destruct (py_eval _ _) as [f|e].
  2:{ destruct (is_syntax_error e), (is_name_error e);
        left; (split; [reflexivity|eexists; reflexivity]). }
  destruct (py_float env (or_empty (t0_value st))) as [t0|];
    [|left; split; [reflexivity|eexists; reflexivity]].
  destruct (py_float env (or_empty (y0_value st))) as [y0|];
    [|left; split; [reflexivity|eexists; reflexivity]].
  destruct (py_float env (or_empty (tf_value st))) as [tf|];
    [|left; split; [reflexivity|eexists; reflexivity]].
  destruct (PyFloat.leb tf t0);
    [left; split; [reflexivity|eexists; reflexivity]|].
  destruct (solve_ivp _ _ _ _ _) as [s|e];
    [|left; split; [reflexivity|eexists; reflexivity]].
  destruct (negb (success s));
    [left; split; [reflexivity|eexists; reflexivity]|].
  unfold store_and_plot.
  destruct (named_temporary_file env);
    [destruct (savefig env _ _ _ _)|]; cbn [fst snd];
    try (left; split; [reflexivity|eexists; reflexivity]).
  right. split; [reflexivity|]. exists s. split; reflexivity.
Qed.

Lemma worker_display (ts : string) (st : App) :
  resultado_value (worker env ts st) = resultado_value st
  /\ resultado_color (worker env ts st) = resultado_color st
  /\ current_solution (worker env ts st) = current_solution st
  /\ solution_params (worker env ts st) = solution_params st.
Proof.
  unfold worker, crear_grafica_externa.
  destruct (current_solution st) as [s|] eqn:C;
    [destruct (makedirs env _);
     [destruct (plot_figure env _ _ _);
      [destruct (write_text env _ _);
       [| |destruct (plt_close env)]|]|]|];
    cbn [fst snd]; try destruct (webbrowser_open env _);
    cbn [resultado_value resultado_color current_solution solution_params
         set_boton_grafica_disabled set_estado_grafica_value set_browser
         set_files set_samples];
    rewrite ?C; repeat split.
Qed.

(** The result line never describes anything but the stored solution.
    Whatever the user has done since the start, the result line is empty,
    or a red error, or the green line of a completed solve, and in that
    last case a solution is stored and the line gives the final time of
    the stored interval and the final value of the stored solution. *)
Theorem result_line_describes_stored_solution (l : list action) :
  resultado_value (run env l initial) = EmptyString
  \/ (resultado_color (run env l initial) = RED_600
      /\ exists msg,
           resultado_value (run env l initial) = "❌ Error: " ++ msg)
  \/ (resultado_color (run env l initial) = GREEN_700
      /\ exists s,
           current_solution (run env l initial) = Some s
           /\ resultado_value (run env l initial)
              = "✅ y("
                  ++ str_float env (p_tf (solution_params (run env l initial)))
                  ++ ") ≈ " ++ format_6f env (y_final s)).
Proof.
  assert (G : forall st,
    (resultado_value st = EmptyString
     \/ (resultado_color st = RED_600
         /\ exists msg, resultado_value st = "❌ Error: " ++ msg)
     \/ (resultado_color st = GREEN_700
         /\ exists s,
              current_solution st = Some s
              /\ resultado_value st
                 = "✅ y(" ++ str_float env (p_tf (solution_params st))
                     ++ ") ≈ " ++ format_6f env (y_final s))) ->
    (resultado_value (run env l st) = EmptyString
     \/ (resultado_color (run env l st) = RED_600
         /\ exists msg, resultado_value (run env l st) = "❌ Error: " ++ msg)
     \/ (resultado_color (run env l st) = GREEN_700
         /\ exists s,
              current_solution (run env l st) = Some s
              /\ resultado_value (run env l st)
                 = "✅ y("
                     ++ str_float env (p_tf (solution_params (run env l st)))
                     ++ ") ≈ " ++ format_6f env (y_final s)))).
  { induction l as [|a r IH]; intros st H; [exact H|].
    simpl. apply IH. clear IH.
    destruct a as [b|x|x|x| |ts| ]; unfold perform.
    - destruct (existsb _ _); exact H.
    - exact H.
    - exact H.
    - exact H.
    - destruct (resolver_display st) as [R|R]; auto.
    - destruct (boton_grafica_disabled st); [exact H|].
      unfold mostrar_grafica_externa.
      destruct (current_solution st) as [s|] eqn:C; cbn [fst snd].
      + destruct (worker_display ts
                    (set_estado_grafica_value "Generando gráfica..."
                       (set_boton_grafica_disabled true st)))
          as (V & K & S & P).
        rewrite V, K, S, P.
        cbn [resultado_value resultado_color current_solution
             solution_params set_estado_grafica_value
             set_boton_grafica_disabled].
        rewrite C. exact H.
      + right. left. split; [reflexivity|eexists; reflexivity].
    - left. reflexivity. }
  apply G. left. reflexivity.
Qed.

End Display.

(** ** Further worked inputs *)

Section WorkedActions.

Lemma failed_solve_changes_only_the_result_text_witness :
  solve_failed
    (fst (resolver_ecuacion Exact.env
            (set_tf_value (Some "0") Exact.after_solve))) = true
  /\ exists msg calls,
       snd (resolver_ecuacion Exact.env
              (set_tf_value (Some "0") Exact.after_solve))
       = show_error msg
           (set_ivp_calls calls (set_tf_value (Some "0") Exact.after_solve))
       /\ (calls = ivp_calls (set_tf_value (Some "0") Exact.after_solve)
           \/ exists c,
                calls
                = c :: ivp_calls (set_tf_value (Some "0") Exact.after_solve)).
Proof.
  assert (H : solve_failed
                (fst (resolver_ecuacion Exact.env
                        (set_tf_value (Some "0") Exact.after_solve))) = true)
    by (vm_compute; reflexivity).
  exact (conj H
           (failed_solve_changes_only_the_result_text Exact.env
              (set_tf_value (Some "0") Exact.after_solve) H)).
Defined.

Lemma export_path_is_the_timestamp_witness :
  fst (crear_grafica_externa Exact.env "20260101_120000" Exact.after_solve)
  = Some "/tmp/calcediff/grafica_20260101_120000.html"
  /\ fst (crear_grafica_externa Exact.env "20260101_120001"
            Exact.after_solve)
     = Some "/tmp/calcediff/grafica_20260101_120001.html"
  /\ ("/tmp/calcediff/grafica_20260101_120000.html"
      = "/tmp/calcediff/grafica_20260101_120001.html"
      <-> "20260101_120000" = "20260101_120001").
Proof.
  assert (A : fst (crear_grafica_externa Exact.env "20260101_120000"
                     Exact.after_solve)
              = Some "/tmp/calcediff/grafica_20260101_120000.html")
    by (vm_compute; reflexivity).
  assert (B : fst (crear_grafica_externa Exact.env "20260101_120001"
                     Exact.after_solve)
              = Some "/tmp/calcediff/grafica_20260101_120001.html")
    by (vm_compute; reflexivity).
  exact (conj A (conj B
           (export_path_is_the_timestamp Exact.env _ _ _ _ _ _ A B))).
Defined.

Lemma solved_equation_is_exported_witness :
  fst (resolver_ecuacion Exact.env (Exact.typed "y-t^2+1" "0" "0.5" "2"))
  = Solved
  /\ fst (crear_grafica_externa Exact.env Exact.stamp
            (snd (resolver_ecuacion Exact.env
                    (Exact.typed "y-t^2+1" "0" "0.5" "2"))))
     = Some "/tmp/calcediff/grafica_20260101_120000.html"
  /\ exists s t0 y0 tf,
       numbers Exact.env (Exact.typed "y-t^2+1" "0" "0.5" "2")
       = Some (t0, y0, tf)
       /\ current_solution
            (snd (resolver_ecuacion Exact.env
                    (Exact.typed "y-t^2+1" "0" "0.5" "2"))) = Some s
       /\ files (snd (crear_grafica_externa Exact.env Exact.stamp
                        (snd (resolver_ecuacion Exact.env
                                (Exact.typed "y-t^2+1" "0" "0.5" "2")))))
          = ("/tmp/calcediff/grafica_20260101_120000.html",
             html_content
               (or_empty
                  (ecuacion_value (Exact.typed "y-t^2+1" "0" "0.5" "2")))
               (str_float_list Exact.env
                  (map (round3 Exact.env)
                     (Numpy.linspace t0 tf sample_count)))
               (str_float_list Exact.env
                  (map (sol s) (Numpy.linspace t0 tf sample_count))))
            :: files (Exact.typed "y-t^2+1" "0" "0.5" "2").
Proof.
  assert (A : fst (resolver_ecuacion Exact.env
                     (Exact.typed "y-t^2+1" "0" "0.5" "2")) = Solved)
    by (vm_compute; reflexivity).
  assert (B : fst (crear_grafica_externa Exact.env Exact.stamp
                     (snd (resolver_ecuacion Exact.env
                             (Exact.typed "y-t^2+1" "0" "0.5" "2"))))
              = Some "/tmp/calcediff/grafica_20260101_120000.html")
    by (vm_compute; reflexivity).
  exact (conj A (conj B
           (solved_equation_is_exported Exact.env Exact.stamp
              (Exact.typed "y-t^2+1" "0" "0.5" "2") _ A B))).
Defined.

End WorkedActions.
